(** * trading_api: leverage adjustments relative to ETH

    A shallow embedding of [src/trading_api.py] and the properties of its
    statistics engine ([TradingAnalyzer]), its SQLite store
    ([DatabaseManager]), the query endpoint and the refresh cycle.

    Python's [float] is IEEE 754 binary64: it is modelled by Rocq's primitive
    [float], whose operations are the processor's and whose specification
    ([FloatAxioms]) relates them to [SpecFloat].  Python's [int] is [Z],
    [str] is [string], a [dict] is a [gmap] (or an insertion-ordered
    association list where the order is observed). *)

From Stdlib Require Import ZArith Lia List Floats Ascii String Sorted.
From stdpp Require Import base option list gmap strings relations sorting.

Set Warnings "-inexact-float".
Set Default Proof Using "Type".

Local Open Scope Z_scope.

(** ** Python floats *)

Module PyFloat.

(** [float(z)] for a Python int: the nearest binary64 value. *)
Definition of_int (z : Z) : float :=
  SF2Prim (binary_normalize prec emax z 0 false).

(** The builtins [min(a, b)] and [max(a, b)] keep their first argument
    unless the second is strictly smaller (resp. larger). *)
Definition min2 (a b : float) : float := if (b <? a)%float then b else a.
Definition max2 (a b : float) : float := if (a <? b)%float then b else a.

(** [min(l, key=key)]: the running best is replaced only by an element with
    a strictly smaller key; [None] stands for the [ValueError] raised on an
    empty sequence. *)
Fixpoint min_key_from {A} (key : A -> float) (best : A) (l : list A) : A :=
  match l with
  | [] => best
  | x :: l' =>
      min_key_from key (if (key x <? key best)%float then x else best) l'
  end.

Definition min_key {A} (key : A -> float) (l : list A) : option A :=
  match l with
  | [] => None
  | x :: l' => Some (min_key_from key x l')
  end.

(** *** The order of [SpecFloat], by cases *)

Ltac cmp_cases :=
  repeat match goal with
  | H : context [Z.compare ?a ?b] |- _ => destruct (Z.compare_spec a b); subst
  | |- context [Z.compare ?a ?b] => destruct (Z.compare_spec a b); subst
  | H : context [Pos.compare_cont Eq ?a ?b] |- _ =>
      change (Pos.compare_cont Eq a b) with (Pos.compare a b) in H;
      destruct (Pos.compare_spec a b); subst
  | |- context [Pos.compare_cont Eq ?a ?b] =>
      change (Pos.compare_cont Eq a b) with (Pos.compare a b);
      destruct (Pos.compare_spec a b); subst
  end.

Ltac sf_order :=
  unfold SFltb, SFleb, SFeqb, SFcompare; intros;
  repeat match goal with
         | x : spec_float |- _ => destruct x as [[]|[]| |[] ? ?]
         end;
  simpl in *; try congruence; cmp_cases; simpl in *; try congruence; try lia.

Lemma SFltb_trans x y z :
  SFltb x y = true -> SFltb y z = true -> SFltb x z = true.
Proof. revert x y z. sf_order. Qed.

Lemma SFleb_ltb_trans x y z :
  SFleb x y = true -> SFltb y z = true -> SFltb x z = true.
Proof. revert x y z. sf_order. Qed.

Lemma SFltb_leb x y : SFltb x y = true -> SFleb x y = true.
Proof. revert x y. sf_order. Qed.

Lemma SFltb_asym x y : SFltb x y = true -> SFltb y x = false.
Proof. revert x y. sf_order. Qed.

Lemma SFleb_of_not_ltb x y :
  x <> S754_nan -> y <> S754_nan -> SFltb y x = false -> SFleb x y = true.
Proof. revert x y. sf_order. Qed.

Lemma SFleb_antisym_finite x s m e :
  SFltb x (S754_finite s m e) = false ->
  SFltb (S754_finite s m e) x = false ->
  x <> S754_nan -> x = S754_finite s m e.
Proof.
  unfold SFltb, SFcompare. destruct x as [[]|[]| |[] m' e'], s;
    simpl; try congruence; cmp_cases; simpl; first [congruence | lia].
Qed.

Lemma SFeqb_refl x : x <> S754_nan -> SFeqb x x = true.
Proof.
  unfold SFeqb, SFcompare. destruct x as [[]|[]| |[] m e];
    try congruence; intros _; rewrite Z.compare_refl;
    change (Pos.compare_cont Eq m m) with (Pos.compare m m);
    now rewrite Pos.compare_refl.
Qed.

(** *** The same facts on primitive floats *)

Definition not_nan (x : float) : Prop := Prim2SF x <> S754_nan.

Lemma ltb_trans (x y z : float) :
  (x <? y)%float = true -> (y <? z)%float = true -> (x <? z)%float = true.
Proof. rewrite !ltb_spec. apply SFltb_trans. Qed.

Lemma leb_ltb_trans (x y z : float) :
  (x <=? y)%float = true -> (y <? z)%float = true -> (x <? z)%float = true.
Proof. rewrite leb_spec, !ltb_spec. apply SFleb_ltb_trans. Qed.

Lemma ltb_leb (x y : float) :
  (x <? y)%float = true -> (x <=? y)%float = true.
Proof. rewrite leb_spec, ltb_spec. apply SFltb_leb. Qed.

Lemma ltb_asym (x y : float) :
  (x <? y)%float = true -> (y <? x)%float = false.
Proof. rewrite !ltb_spec. apply SFltb_asym. Qed.

Lemma ltb_irrefl (x : float) : (x <? x)%float = false.
Proof.
  destruct (x <? x)%float eqn:E; [|reflexivity].
  pose proof (ltb_asym _ _ E). congruence.
Qed.

Lemma leb_of_not_ltb (x y : float) :
  not_nan x -> not_nan y -> (y <? x)%float = false -> (x <=? y)%float = true.
Proof. rewrite leb_spec, ltb_spec. apply SFleb_of_not_ltb. Qed.

Lemma eq_of_not_ltb (x c : float) s m e :
  Prim2SF c = S754_finite s m e -> not_nan x ->
  (x <? c)%float = false -> (c <? x)%float = false -> x = c.
Proof.
  intros Hc Hx. rewrite !ltb_spec, Hc. intros H1 H2.
  apply Prim2SF_inj. rewrite Hc. now apply SFleb_antisym_finite.
Qed.

Lemma not_nan_is_nan (x : float) : not_nan x <-> is_nan x = false.
Proof.
  unfold not_nan, is_nan. rewrite FloatAxioms.eqb_spec. split.
  - intros H. now rewrite SFeqb_refl.
  - intros H E. rewrite E in H. discriminate.
Qed.

(** *** Division by a positive float is never NaN *)

Lemma shr_1_nonneg mrs : 0 <= shr_m mrs -> 0 <= shr_m (shr_1 mrs).
Proof. destruct mrs as [[|[p|p|]|[p|p|]] r s]; simpl; lia. Qed.

Lemma iter_pos_shr_1_nonneg p :
  forall mrs, 0 <= shr_m mrs -> 0 <= shr_m (SpecFloat.iter_pos shr_1 p mrs).
Proof.
  induction p as [p IH|p IH|]; simpl; intros mrs H.
  - apply IH, IH, shr_1_nonneg, H.
  - apply IH, IH, H.
  - apply shr_1_nonneg, H.
Qed.

Lemma shr_fexp_nonneg m e l :
  0 <= m -> 0 <= shr_m (fst (shr_fexp prec emax m e l)).
Proof.
  intros H. unfold shr_fexp, shr.
  assert (H0 : 0 <= shr_m (shr_record_of_loc m l))
    by (destruct l as [|[]]; exact H).
  destruct (_ - e); simpl; auto using iter_pos_shr_1_nonneg.
Qed.

Lemma round_nearest_even_nonneg m l : 0 <= m -> 0 <= round_nearest_even m l.
Proof. destruct l as [|[]]; simpl; try destruct (Z.even m); lia. Qed.

Lemma binary_round_aux_not_nan s m e l :
  0 <= m -> binary_round_aux prec emax s m e l <> S754_nan.
Proof.
  intros H. unfold binary_round_aux.
  pose proof (shr_fexp_nonneg m e l H) as H1.
  destruct (shr_fexp prec emax m e l) as [mrs' e']. simpl in H1.
  pose proof (shr_fexp_nonneg _ e' loc_Exact
                (round_nearest_even_nonneg _ (loc_of_shr_record mrs') H1))
    as H2.
  destruct (shr_fexp prec emax _ e' loc_Exact) as [mrs'' e'']. simpl in H2.
  destruct (shr_m mrs''); try discriminate; try lia.
  destruct (e'' <=? _); discriminate.
Qed.

Lemma SFdiv_core_binary_nonneg m1 e1 m2 e2 :
  0 <= fst (fst (SFdiv_core_binary prec emax (Zpos m1) e1 (Zpos m2) e2)).
Proof.
  unfold SFdiv_core_binary.
  set (s := _ - _ - _).
  set (m' := match s with Z0 => _ | Zpos _ => _ | Zneg _ => _ end).
  assert (Hm : 0 <= m').
  { subst m'. destruct s; try lia. apply Z.shiftl_nonneg. lia. }
  pose proof (Z_div_mod m' (Zpos m2) ltac:(lia)) as Hd.
  destruct (Z.div_eucl m' (Zpos m2)) as [q r]. simpl.
  destruct Hd as [Hq Hr]. nia.
Qed.

Lemma SFdiv_finite_not_nan sx mx ex y :
  SFltb (S754_zero false) y = true ->
  SF64div (S754_finite sx mx ex) y <> S754_nan.
Proof.
  destruct y as [s|s| |s my ey]; simpl; try discriminate.
  intros _. unfold SF64div, SFdiv.
  pose proof (SFdiv_core_binary_nonneg mx ex my ey) as H.
  destruct (SFdiv_core_binary _ _ _ _ _ _) as [[mz ez] lz]. simpl in H.
  now apply binary_round_aux_not_nan.
Qed.

Lemma one_div_pos_not_nan (x : float) :
  (0 <? x)%float = true -> not_nan (1 / x)%float.
Proof.
  unfold not_nan. rewrite ltb_spec, div_spec.
  change (Prim2SF 0) with (S754_zero false).
  change (Prim2SF 1) with (S754_finite false 4503599627370496 (-52)).
  apply SFdiv_finite_not_nan.
Qed.

Lemma not_nan_one : not_nan 1%float.
Proof. unfold not_nan. now vm_compute. Qed.

(** *** [min(l, key=...)] returns the first element with the least key *)

(** [s] splits [l] so that everything before it has a key that is not
    [<=] its own, and nothing after it has a strictly smaller key.  Stated
    with the comparisons the interpreter evaluates, it holds for NaN keys
    too. *)
Definition first_least {A} (key : A -> float) (l : list A) (s : A) : Prop :=
  exists before after,
    l = before ++ s :: after
    /\ (forall x, In x before -> (key x <=? key s)%float = false)
    /\ (forall x, In x after -> (key x <? key s)%float = false).

Lemma min_key_from_first_least {A} (key : A -> float) (l : list A) :
  forall b0 best a0,
    (forall x, In x b0 -> (key x <=? key best)%float = false) ->
    (forall x, In x a0 -> (key x <? key best)%float = false) ->
    first_least key (b0 ++ best :: a0 ++ l) (min_key_from key best l).
Proof.
  induction l as [|y l IH]; intros b0 best a0 Hb Ha; simpl.
  - exists b0, a0. now rewrite app_nil_r.
  - destruct (key y <? key best)%float eqn:E.
    + replace (b0 ++ best :: a0 ++ y :: l)
        with ((b0 ++ best :: a0) ++ y :: [] ++ l)
        by (now rewrite <- app_assoc).
      apply IH; [|intros x []].
      intros x Hx. destruct (key x <=? key y)%float eqn:Exy; [|reflexivity].
      pose proof (leb_ltb_trans _ _ _ Exy E) as Hlt.
      apply in_app_or in Hx. destruct Hx as [Hx|[<-|Hx]].
      * apply ltb_leb in Hlt. rewrite (Hb x Hx) in Hlt. discriminate.
      * rewrite ltb_irrefl in Hlt. discriminate.
      * rewrite (Ha x Hx) in Hlt. discriminate.
    + replace (b0 ++ best :: a0 ++ y :: l)
        with (b0 ++ best :: (a0 ++ [y]) ++ l)
        by (now rewrite <- app_assoc).
      apply IH; [exact Hb|].
      intros x Hx. apply in_app_or in Hx. destruct Hx as [Hx|[<-|[]]]; auto.
Qed.

Lemma min_key_first_least {A} (key : A -> float) (l : list A) s :
  min_key key l = Some s -> first_least key l s.
Proof.
  destruct l as [|x l]; [discriminate|]. intros [= <-].
  apply (min_key_from_first_least key l [] x []); intros ? [].
Qed.

Lemma min_key_from_In {A} (key : A -> float) (l : list A) :
  forall best, In (min_key_from key best l) (best :: l).
Proof.
  induction l as [|y l IH]; intros best; simpl; [now left|].
  specialize (IH (if (key y <? key best)%float then y else best)).
  destruct (key y <? key best)%float; simpl in IH; tauto.
Qed.

Lemma min_key_In {A} (key : A -> float) (l : list A) s :
  min_key key l = Some s -> In s l.
Proof.
  destruct l as [|x l]; [discriminate|]. intros [= <-].
  apply min_key_from_In.
Qed.

End PyFloat.

(** ** TradingAnalyzer: leverage adjustment and recommendation *)

Section LeverageFormulas.
Local Open Scope float_scope.

(** [TradingAnalyzer.calculate_leverage_adjustment].  The literals [0] and
    [2] of the source are Python ints, converted to floats by the
    comparison and the division. *)
Definition calculate_leverage_adjustment
    (pair_volatility eth_volatility pair_avg_movement eth_avg_movement : float)
    : float :=
  let volatility_ratio :=
    if 0 <? eth_volatility then pair_volatility / eth_volatility else 1.0 in
  let movement_ratio :=
    if 0 <? eth_avg_movement then pair_avg_movement / eth_avg_movement
    else 1.0 in
  let risk_ratio := (volatility_ratio + movement_ratio) / 2 in
  let leverage_adjustment := if 0 <? risk_ratio then 1.0 / risk_ratio else 1.0 in
  PyFloat.max2 0.1 (PyFloat.min2 2.0 leverage_adjustment).

Definition leverage_levels : list Z := [1; 2; 3; 5; 10; 20; 25; 50]%Z.

(** [TradingAnalyzer.recommend_leverage].  [min] cannot raise here, the
    ladder being a non-empty literal; the [None] branch is unreachable. *)
Definition recommend_leverage (leverage_adjustment volatility_ratio : float)
    : Z :=
  let base_leverage := 10%Z in
  let adjusted_leverage := PyFloat.of_int base_leverage * leverage_adjustment in
  let adjusted_leverage :=
    if 1.5 <? volatility_ratio then adjusted_leverage * 0.6
    else if 1.2 <? volatility_ratio then adjusted_leverage * 0.8
    else adjusted_leverage in
  match PyFloat.min_key (fun x => abs (PyFloat.of_int x - adjusted_leverage))
          leverage_levels with
  | Some recommended => Z.max 1 (Z.min 25 recommended)
  | None => 0%Z
  end.

(** *** The formulas as the specification words them *)

Definition clamp (lo hi x : float) : float :=
  if x <? lo then lo else if hi <? x then hi else x.

Definition ratio_or_one (numerator denominator : float) : float :=
  if 0 <? denominator then numerator / denominator else 1.

Definition leverageAdjustment_spec
    (instrVol benchVol instrMovement benchMovement : float) : float :=
  let volatilityRatio := ratio_or_one instrVol benchVol in
  let movementRatio := ratio_or_one instrMovement benchMovement in
  let riskRatio := (volatilityRatio + movementRatio) / 2 in
  clamp 0.1 2.0 (if 0 <? riskRatio then 1 / riskRatio else 1).

Definition penalised_scaled (adjustment volatilityRatio : float) : float :=
  let scaled := 10 * adjustment in
  if 1.5 <? volatilityRatio then scaled * 0.6
  else if 1.2 <? volatilityRatio then scaled * 0.8
  else scaled.

(** Distance of a ladder value to the scaled target, as the key computes
    it. *)
Definition ladder_distance (target : float) (x : Z) : float :=
  abs (PyFloat.of_int x - target).

Definition clampZ (lo hi x : Z) : Z := Z.max lo (Z.min hi x).

End LeverageFormulas.

Section LeverageProofs.
Local Open Scope float_scope.
Import PyFloat.

Lemma max2_min2_clamp (x : float) :
  not_nan x ->
  (0.1 <=? max2 0.1 (min2 2.0 x)) = true
  /\ (max2 0.1 (min2 2.0 x) <=? 2.0) = true
  /\ max2 0.1 (min2 2.0 x) = clamp 0.1 2.0 x.
Proof.
  intros Hx. unfold max2, min2, clamp.
  destruct (x <? 2.0) eqn:E2.
  - destruct (0.1 <? x) eqn:E1.
    + rewrite (ltb_asym _ _ E1), (ltb_asym _ _ E2).
      auto using ltb_leb.
    + repeat split; try reflexivity.
      destruct (x <? 0.1) eqn:E0; [reflexivity|].
      rewrite (ltb_asym _ _ E2). symmetry.
      now apply (eq_of_not_ltb x 0.1 false 7205759403792794 (-56)%Z).
  - change (0.1 <? 2.0) with true. cbv iota.
    repeat split; try reflexivity.
    destruct (x <? 0.1) eqn:E0.
    + assert (H : (x <? 2.0) = true)
        by (apply (ltb_trans _ 0.1); [exact E0|reflexivity]).
      congruence.
    + destruct (2.0 <? x) eqn:E3; [reflexivity|]. symmetry.
      now apply (eq_of_not_ltb x 2.0 false 4503599627370496 (-51)%Z).
Qed.

(** C1. For every four floats (NaN and the infinities included),
    [calculate_leverage_adjustment] returns a value [r] with
    [0.1 <= r <= 2.0], and [r] is the clamp to [[0.1, 2.0]] of
    [1/riskRatio], where [riskRatio] is the mean of the volatility ratio
    and the movement ratio, a ratio being [1.0] when its benchmark
    denominator is not [> 0] and [1/riskRatio] being [1.0] when
    [riskRatio] is not [> 0]. *)
Theorem calculate_leverage_adjustment_clamped
    (pair_volatility eth_volatility pair_avg_movement eth_avg_movement : float) :
  let r := calculate_leverage_adjustment pair_volatility eth_volatility
             pair_avg_movement eth_avg_movement in
  (0.1 <=? r) = true
  /\ (r <=? 2.0) = true
  /\ r = leverageAdjustment_spec pair_volatility eth_volatility
           pair_avg_movement eth_avg_movement.
Proof.
  unfold calculate_leverage_adjustment, leverageAdjustment_spec, ratio_or_one.
  cbv zeta.
  set (risk_ratio := (_ + _) / 2).
  apply max2_min2_clamp.
  destruct (0 <? risk_ratio) eqn:E.
  - now apply one_div_pos_not_nan.
  - apply not_nan_one.
Qed.

Lemma of_int_10 : of_int 10 = 10.
Proof. reflexivity. Qed.

Lemma clampZ_ladder (s : Z) :
  In s leverage_levels -> In (clampZ 1 25 s) [1; 2; 3; 5; 10; 20; 25]%Z.
Proof.
  unfold leverage_levels, clampZ. simpl.
  intros H; repeat (destruct H as [<-|H]; [simpl; tauto|]). destruct H.
Qed.

Lemma recommend_leverage_range (leverage_adjustment volatility_ratio : float) :
  In (recommend_leverage leverage_adjustment volatility_ratio)
    [1; 2; 3; 5; 10; 20; 25]%Z.
Proof.
  unfold recommend_leverage. cbv zeta.
  set (key := fun x : Z => abs (of_int x - _)).
  destruct (min_key key leverage_levels) as [s|] eqn:E; [|discriminate].
  apply clampZ_ladder. now apply (min_key_In key).
Qed.

(** C2. For every adjustment and volatility ratio, [recommend_leverage]
    returns an integer of [{1,2,3,5,10,20,25}].  It is the clamp to
    [[1,25]] of the ladder value [s] nearest to the scaled target
    ([10 * adjustment], times [0.6] when [volatilityRatio > 1.5], else
    times [0.8] when [volatilityRatio > 1.2]): no ladder value after [s]
    is strictly nearer, and every ladder value before [s] is farther (its
    distance is not [<=] that of [s]), so the first of several nearest
    values wins. *)
Theorem recommend_leverage_ladder (leverage_adjustment volatility_ratio : float) :
  let r := recommend_leverage leverage_adjustment volatility_ratio in
  let target := penalised_scaled leverage_adjustment volatility_ratio in
  In r [1; 2; 3; 5; 10; 20; 25]%Z
  /\ exists s,
       first_least (ladder_distance target) leverage_levels s
       /\ r = clampZ 1 25 s.
Proof.
  unfold recommend_leverage, penalised_scaled. cbv zeta.
  rewrite of_int_10.
  set (target := if 1.5 <? volatility_ratio then _ else _).
  change (fun x : Z => abs (of_int x - target)) with (ladder_distance target).
  destruct (min_key (ladder_distance target) leverage_levels) as [s|] eqn:E;
    [|discriminate].
  split.
  - apply clampZ_ladder. now apply (min_key_In (ladder_distance target)).
  - exists s. split; [|reflexivity]. now apply min_key_first_least.
Qed.

(** Scenario A of the specification: equal volatilities and movements give
    adjustment [1.0] and leverage [10]. *)
Example scenario_A :
  calculate_leverage_adjustment 0.8 0.8 0.05 0.05 = 1
  /\ recommend_leverage 1 1 = 10%Z.
Proof. split; reflexivity. Qed.

(** Scenario B: instrument volatility [2.4] against [0.8].  In binary64
    the ratio is [2.9999999999999996] and the adjustment
    [0.5000000000000001], one unit in the last place away from the [3.0]
    and [0.5] of real arithmetic; the recommendation is [3] all the same. *)
Example scenario_B :
  (2.4 / 0.8 = 2.9999999999999996)%float
  /\ calculate_leverage_adjustment 2.4 0.8 0.05 0.05 = 0.5000000000000001
  /\ recommend_leverage (calculate_leverage_adjustment 2.4 0.8 0.05 0.05)
       (2.4 / 0.8) = 3%Z
  /\ penalised_scaled 0.5 3.0 = 3.0
  /\ recommend_leverage 0.5 3.0 = 3%Z.
Proof. repeat split; reflexivity. Qed.

(** NaN and infinite inputs stay inside the ranges. *)
Example leverage_of_nan :
  calculate_leverage_adjustment nan 0.8 0.05 0.05 = 1
  /\ calculate_leverage_adjustment infinity 0.8 0.05 0.05 = 0.1
  /\ calculate_leverage_adjustment 0 0.8 0 0.05 = 1
  /\ recommend_leverage nan 1 = 1%Z
  /\ recommend_leverage 2.0 1 = 20%Z.
Proof. repeat split; reflexivity. Qed.

End LeverageProofs.

(** ** Python datetimes and their ISO text *)

Module PyDatetime.
Local Open Scope string_scope.
Local Open Scope Z_scope.

(** A naive [datetime.datetime]: the fields the object stores. *)
Record datetime := mk_datetime {
  year : Z; month : Z; day : Z;
  hour : Z; minute : Z; second : Z; microsecond : Z }.

Definition is_leap (y : Z) : bool :=
  (y mod 4 =? 0) && (negb (y mod 100 =? 0) || (y mod 400 =? 0)).

Definition days_in_month (y m : Z) : Z :=
  match m with
  | 2 => if is_leap y then 29 else 28
  | 4 | 6 | 9 | 11 => 30
  | _ => 31
  end.

(** The ranges the constructor enforces ([MINYEAR = 1], [MAXYEAR = 9999]). *)
Definition valid_datetime (d : datetime) : bool :=
  (1 <=? year d) && (year d <=? 9999)
  && (1 <=? month d) && (month d <=? 12)
  && (1 <=? day d) && (day d <=? days_in_month (year d) (month d))
  && (0 <=? hour d) && (hour d <? 24)
  && (0 <=? minute d) && (minute d <? 60)
  && (0 <=? second d) && (second d <? 60)
  && (0 <=? microsecond d) && (microsecond d <? 1000000).

Definition digit_char (n : Z) : ascii := ascii_of_N (Z.to_N (48 + n)).

(** ["%0<width>d" % n] for [n < 10 ^ width]. *)
Fixpoint zero_pad (width : nat) (n : Z) : string :=
  match width with
  | O => EmptyString
  | S w =>
      String (digit_char (n / 10 ^ Z.of_nat w mod 10))
        (zero_pad w (n mod 10 ^ Z.of_nat w))
  end.

(** [datetime.isoformat(sep)], with the default [timespec='auto']: the
    fraction is printed only when the microsecond is not zero. *)
Definition isoformat (sep : ascii) (d : datetime) : string :=
  zero_pad 4 (year d) ++ "-" ++ zero_pad 2 (month d) ++ "-"
  ++ zero_pad 2 (day d) ++ String sep
       (zero_pad 2 (hour d) ++ ":" ++ zero_pad 2 (minute d) ++ ":"
        ++ zero_pad 2 (second d)
        ++ (if microsecond d =? 0 then EmptyString
            else "." ++ zero_pad 6 (microsecond d))).

Definition digit_of (c : ascii) : option Z :=
  let n := Z.of_N (N_of_ascii c) in
  if (48 <=? n) && (n <=? 57) then Some (n - 48) else None.

(** Read exactly [width] decimal digits. *)
Fixpoint read_digits (width : nat) (acc : Z) (s : string)
    : option (Z * string) :=
  match width with
  | O => Some (acc, s)
  | S w =>
      match s with
      | String c s' => d ← digit_of c; read_digits w (10 * acc + d) s'
      | EmptyString => None
      end
  end.

Definition expect (c : ascii) (s : string) : option string :=
  match s with
  | String c' s' => if decide (c = c') then Some s' else None
  | EmptyString => None
  end.

(** The fraction after the seconds: nothing, or a dot and three or six
    digits. *)
Definition read_fraction (s : string) : option Z :=
  match s with
  | EmptyString => Some 0
  | String c s' =>
      if decide (c = "."%char) then
        match String.length s' with
        | 3%nat => '(ms, _) ← read_digits 3 0 s'; Some (ms * 1000)
        | 6%nat => '(us, _) ← read_digits 6 0 s'; Some us
        | _ => None
        end
      else None
  end.

(** [HH[:MM[:SS[.fff[fff]]]]] *)
Definition read_time (s : string) : option (Z * Z * Z * Z) :=
  '(hh, s) ← read_digits 2 0 s;
  match s with
  | EmptyString => Some (hh, 0, 0, 0)
  | _ =>
      s ← expect ":" s;
      '(mm, s) ← read_digits 2 0 s;
      match s with
      | EmptyString => Some (hh, mm, 0, 0)
      | _ =>
          s ← expect ":" s;
          '(ss, s) ← read_digits 2 0 s;
          us ← read_fraction s;
          Some (hh, mm, ss, us)
      end
  end.

(** [datetime.fromisoformat] for naive datetimes, with the grammar of
    Python 3.7 to 3.10: [YYYY-MM-DD[*HH[:MM[:SS[.fff[fff]]]]]], any one
    character being accepted as the separator; [None] is [ValueError].
    Later versions read further ISO 8601 forms, and these ones the same
    way. *)
Definition fromisoformat (s : string) : option datetime :=
  '(y, s) ← read_digits 4 0 s;
  s ← expect "-" s;
  '(m, s) ← read_digits 2 0 s;
  s ← expect "-" s;
  '(d, s) ← read_digits 2 0 s;
  '(hh, mm, ss, us) ←
    match s with
    | EmptyString => Some (0, 0, 0, 0)
    | String _ s' => read_time s'
    end;
  let dt := mk_datetime y m d hh mm ss us in
  if valid_datetime dt then Some dt else None.

Example isoformat_example :
  isoformat " " (mk_datetime 2024 3 9 7 5 0 1500) = "2024-03-09 07:05:00.001500"
  /\ isoformat "T" (mk_datetime 2024 12 31 23 59 59 0) = "2024-12-31T23:59:59"
  /\ fromisoformat "2024-03-09 07:05:00.001500"
     = Some (mk_datetime 2024 3 9 7 5 0 1500)
  /\ fromisoformat "2024-12-31T23:59:59" = Some (mk_datetime 2024 12 31 23 59 59 0)
  /\ fromisoformat "2024-02-30 00:00:00" = None
  /\ fromisoformat "yesterday" = None.
Proof. repeat split; reflexivity. Qed.

Lemma append_String c s t : String c s ++ t = String c (s ++ t).
Proof. reflexivity. Qed.

Lemma append_empty t : EmptyString ++ t = t.
Proof. reflexivity. Qed.

Lemma digit_of_digit_char n :
  0 <= n < 10 -> digit_of (digit_char n) = Some n.
Proof.
  intros H. rewrite <- (Z2Nat.id n) by lia.
  assert (Hk : (Z.to_nat n < 10)%nat) by lia. revert Hk.
  generalize (Z.to_nat n) as k. intros k Hk.
  do 10 (destruct k as [|k]; [reflexivity|]). lia.
Qed.

Lemma read_digits_zero_pad width :
  forall n acc rest,
    0 <= n < 10 ^ Z.of_nat width ->
    read_digits width acc (zero_pad width n ++ rest)
    = Some (acc * 10 ^ Z.of_nat width + n, rest).
Proof.
  induction width as [|w IH]; intros n acc rest Hn.
  - simpl in *. f_equal. f_equal. lia.
  - cbn [zero_pad read_digits]. rewrite append_String.
    rewrite Nat2Z.inj_succ, Z.pow_succ_r in * by lia.
    assert (Hp : 0 < 10 ^ Z.of_nat w) by (apply Z.pow_pos_nonneg; lia).
    assert (Hq : 0 <= n / 10 ^ Z.of_nat w < 10).
    { split; [apply Z.div_pos; lia|apply Z.div_lt_upper_bound; lia]. }
    rewrite (Z.mod_small _ 10 Hq), (digit_of_digit_char _ Hq). simpl mbind.
    rewrite IH by (apply Z.mod_pos_bound; lia).
    f_equal. f_equal.
    pose proof (Z.div_mod n (10 ^ Z.of_nat w)). nia.
Qed.

Lemma read_zero_pad width n rest :
  0 <= n < 10 ^ Z.of_nat width ->
  read_digits width 0 (zero_pad width n ++ rest) = Some (n, rest).
Proof. intros H. now rewrite read_digits_zero_pad. Qed.

Lemma length_zero_pad width n : String.length (zero_pad width n) = width.
Proof. revert n. induction width; intros; simpl; auto. Qed.

Lemma zero_pad_nil width n :
  zero_pad width n = zero_pad width n ++ EmptyString.
Proof.
  induction (zero_pad width n) as [|c s IH]; [reflexivity|].
  rewrite append_String. now f_equal.
Qed.

Lemma valid_datetime_bounds d :
  valid_datetime d = true ->
  0 <= year d < 10 ^ 4 /\ 0 <= month d < 10 ^ 2 /\ 0 <= day d < 10 ^ 2
  /\ 0 <= hour d < 10 ^ 2 /\ 0 <= minute d < 10 ^ 2
  /\ 0 <= second d < 10 ^ 2 /\ 0 <= microsecond d < 10 ^ 6.
Proof.
  unfold valid_datetime. rewrite !andb_true_iff, !Z.leb_le, !Z.ltb_lt.
  intros [[[[[[[[[[[[[? ?] ?] ?] ?] Hd] ?] ?] ?] ?] ?] ?] ?] ?].
  assert (days_in_month (year d) (month d) <= 31).
  { unfold days_in_month. destruct (is_leap _);
      destruct (month d) as [|[[[|[]|]|[[]|[]|]|]|[[|[]|]|[[]|[]|]|]|]|];
      lia. }
  lia.
Qed.

Lemma expect_String c s : expect c (String c s) = Some s.
Proof. unfold expect. now rewrite decide_True. Qed.

Ltac read_field H :=
  rewrite ?append_String, ?append_empty, ?expect_String;
  cbn [mbind option_bind];
  rewrite read_zero_pad by exact H; cbn [mbind option_bind].

(** What [isoformat] writes, [fromisoformat] reads back, whatever the
    separator. *)
Lemma fromisoformat_isoformat sep d :
  valid_datetime d = true -> fromisoformat (isoformat sep d) = Some d.
Proof.
  intros Hv.
  destruct (valid_datetime_bounds d Hv) as (Hy & Hm & Hd & Hh & Hmi & Hs & Hus).
  unfold fromisoformat, isoformat.
  read_field Hy. read_field Hm. read_field Hd.
  unfold read_time.
  read_field Hh. read_field Hmi. read_field Hs.
  destruct d as [y m dd hh mi ss us].
  cbn [year month day hour minute second microsecond] in *.
  destruct (us =? 0) eqn:E.
  - apply Z.eqb_eq in E. subst us. cbn [read_fraction mbind option_bind].
    now rewrite Hv.
  - rewrite ?append_String, ?append_empty. cbn [read_fraction].
    rewrite decide_True by reflexivity.
    rewrite length_zero_pad.
    rewrite (zero_pad_nil 6 us), read_zero_pad by exact Hus.
    cbn [mbind option_bind]. now rewrite Hv.
Qed.
End PyDatetime.

(** ** Exceptions *)

Inductive exn := OverflowError | ValueError | TypeError | OperationalError.

Inductive result (A : Type) := Ok (a : A) | Raise (e : exn).
Arguments Ok {A} a.
Arguments Raise {A} e.

(** ** PairMetrics and DatabaseManager *)

Module Store.
Import PyDatetime.

(** The dataclass [PairMetrics].  Its float attributes may hold [None] at
    run time, which is what [get_metrics] builds from a NULL column. *)
Record PairMetrics := mk_PairMetrics {
  pair : string;
  leverage_adjustment : option float;
  volatility_ratio : option float;
  correlation_with_eth : option float;
  avg_daily_movement : option float;
  recommended_leverage : Z;
  last_updated : datetime }.

(** A row of table [pair_metrics] without its primary key [pair]: the REAL
    columns hold a float or NULL, [recommended_leverage] a 64-bit integer,
    [last_updated] the text the datetime adapter wrote. *)
Record Row := mk_Row {
  col_leverage_adjustment : option float;
  col_volatility_ratio : option float;
  col_correlation_with_eth : option float;
  col_avg_daily_movement : option float;
  col_recommended_leverage : Z;
  col_last_updated : string }.

(** The table, keyed by its primary key. *)
Abbreviation table := (gmap string Row).

(** Binding a Python value to a parameter stored in a REAL column: [None]
    is NULL, SQLite stores a NaN as NULL, and it stores a float of integral
    value as that integer, read back as a float, which turns the negative
    zero into [0.0].  Every other float is stored as it is. *)
Definition bind_real (v : option float) : option float :=
  match v with
  | Some f =>
      if is_nan f then None
      else if is_zero f then Some 0%float
      else Some f
  | None => None
  end.

(** [sqlite3] refuses an int outside the signed 64-bit range. *)
Definition fits_int64 (z : Z) : bool :=
  (- 2 ^ 63 <=? z) && (z <? 2 ^ 63).

(** The default adapter of [sqlite3] for [datetime]: [isoformat(" ")]. *)
Definition adapt_datetime (d : datetime) : string := isoformat " " d.

Definition row_of (metrics : PairMetrics) : Row :=
  {| col_leverage_adjustment := bind_real (leverage_adjustment metrics);
     col_volatility_ratio := bind_real (volatility_ratio metrics);
     col_correlation_with_eth := bind_real (correlation_with_eth metrics);
     col_avg_daily_movement := bind_real (avg_daily_movement metrics);
     col_recommended_leverage := recommended_leverage metrics;
     col_last_updated := adapt_datetime (last_updated metrics) |}.

(** [DatabaseManager.save_metrics]: one [INSERT OR REPLACE] statement,
    committed.  When binding raises, nothing is written. *)
Definition save_metrics (metrics : PairMetrics) (db : table) : result table :=
  if fits_int64 (recommended_leverage metrics)
  then Ok (<[pair metrics := row_of metrics]> db)
  else Raise OverflowError.

(** The table after a call, whether it returned or raised. *)
Definition table_after (r : result table) (db : table) : table :=
  match r with
  | Ok db' => db'
  | Raise _ => db
  end.

(** The [PairMetrics(...)] built from one fetched row; [fromisoformat] may
    raise. *)
Definition metrics_of_row (key : string) (row : Row) : option PairMetrics :=
  dt ← fromisoformat (col_last_updated row);
  Some {| pair := key;
          leverage_adjustment := col_leverage_adjustment row;
          volatility_ratio := col_volatility_ratio row;
          correlation_with_eth := col_correlation_with_eth row;
          avg_daily_movement := col_avg_daily_movement row;
          recommended_leverage := col_recommended_leverage row;
          last_updated := dt |}.

Section HostParameters.
(** The most host parameters ([?]) SQLite accepts in one statement: a
    positive number fixed when the library is built (32766 by default
    since SQLite 3.32, 999 before, 250000 in some distributions). *)
Variable SQLITE_MAX_VARIABLE_NUMBER : positive.

(** [DatabaseManager.get_metrics]: one [?] per requested pair, so
    [execute] raises for a list longer than the bound; otherwise the rows
    whose key is [IN] the requested list, each turned into a
    [PairMetrics], as a dict keyed by pair. *)
Definition get_metrics (pairs : list string) (db : table)
    : result (gmap string PairMetrics) :=
  if Z.pos SQLITE_MAX_VARIABLE_NUMBER <? Z.of_nat (length pairs)
  then Raise OperationalError
  else
    let rows := filter (fun kv => kv.1 ∈ pairs) db in
    if bool_decide
         (map_Forall (fun k row => is_Some (metrics_of_row k row)) rows)
    then Ok (map_imap metrics_of_row rows)
    else Raise ValueError.

(** [DatabaseManager.get_all_pairs] *)
Definition get_all_pairs (db : table) : list string := (map_to_list db).*1.

(** *** Properties of the store *)

(** The values a REAL column gives back as they were bound: [None] and
    every float but NaN and the negative zero. *)
Definition storable (v : option float) : Prop := bind_real v = v.

Lemma bind_real_storable v : storable v -> bind_real v = v.
Proof. intros H. exact H. Qed.

Example storable_examples :
  storable (Some 0.5%float) /\ storable (Some infinity) /\ storable None
  /\ storable (Some 0%float)
  /\ bind_real (Some nan) = None
  /\ bind_real (Some (-0)%float) = Some 0%float.
Proof. repeat split. Qed.

Lemma save_metrics_Ok metrics db :
  fits_int64 (recommended_leverage metrics) = true ->
  save_metrics metrics db = Ok (<[pair metrics := row_of metrics]> db).
Proof. unfold save_metrics. now intros ->. Qed.

Lemma save_metrics_lookup metrics db db' :
  save_metrics metrics db = Ok db' ->
  db' !! pair metrics = Some (row_of metrics)
  /\ forall k, k <> pair metrics -> db' !! k = db !! k.
Proof.
  unfold save_metrics. destruct (fits_int64 _); [|discriminate].
  intros [= <-]. split.
  - apply lookup_insert_eq.
  - intros k Hk. now apply lookup_insert_ne.
Qed.

(** C9. [save_metrics] is idempotent: saving the same record a second
    time leaves the table as the first save left it (also when the save
    raises, which writes nothing).  And for a record whose leverage fits
    in 64 bits, as every leverage of the ladder does, the save returns,
    the second save returns the same table, and that table keys the record
    by its pair: the row of that pair is the row of the record, whole,
    whatever row was there, and the other rows are those of before. *)
Theorem save_metrics_idempotent (metrics : PairMetrics) (db : table) :
  (let once := table_after (save_metrics metrics db) db in
   let twice := table_after (save_metrics metrics once) once in
   twice = once)
  /\ (fits_int64 (recommended_leverage metrics) = true ->
      exists once,
        save_metrics metrics db = Ok once
        /\ save_metrics metrics once = Ok once
        /\ once !! pair metrics = Some (row_of metrics)
        /\ forall k, k <> pair metrics -> once !! k = db !! k).
Proof.
  cbv zeta. split.
  - unfold save_metrics. destruct (fits_int64 _); simpl.
    + apply insert_insert_eq.
    + reflexivity.
  - intros Hfit. exists (<[pair metrics := row_of metrics]> db).
    unfold save_metrics. rewrite Hfit.
    split; [reflexivity|]. split; [now rewrite insert_insert_eq|].
    split; [apply lookup_insert_eq|].
    intros k Hk. now apply lookup_insert_ne.
Qed.

Lemma metrics_of_row_row_of metrics :
  storable (leverage_adjustment metrics) ->
  storable (volatility_ratio metrics) ->
  storable (correlation_with_eth metrics) ->
  storable (avg_daily_movement metrics) ->
  valid_datetime (last_updated metrics) = true ->
  metrics_of_row (pair metrics) (row_of metrics) = Some metrics.
Proof.
  intros H1 H2 H3 H4 Hv. unfold metrics_of_row, row_of, adapt_datetime.
  cbn [col_last_updated col_leverage_adjustment col_volatility_ratio
       col_correlation_with_eth col_avg_daily_movement
       col_recommended_leverage].
  rewrite fromisoformat_isoformat by exact Hv. cbn [mbind option_bind].
  rewrite !bind_real_storable by assumption. now destruct metrics.
Qed.

Lemma get_metrics_lookup pairs db res k :
  get_metrics pairs db = Ok res ->
  res !! k = if bool_decide (k ∈ pairs) then db !! k ≫= metrics_of_row k
             else None.
Proof.
  unfold get_metrics. destruct (_ <? _); [discriminate|].
  case_bool_decide; [|discriminate]. intros [= <-].
  rewrite map_lookup_imap, map_lookup_filter.
  destruct (db !! k) as [row|]; simpl; case_bool_decide; try reflexivity.
  - rewrite option_guard_True by assumption. reflexivity.
  - rewrite option_guard_False by assumption. reflexivity.
Qed.

Lemma get_metrics_Ok pairs db :
  Z.of_nat (length pairs) <= Z.pos SQLITE_MAX_VARIABLE_NUMBER ->
  (forall k row, k ∈ pairs -> db !! k = Some row ->
                 is_Some (metrics_of_row k row)) ->
  exists res, get_metrics pairs db = Ok res.
Proof.
  intros Hlen H. unfold get_metrics.
  rewrite (proj2 (Z.ltb_ge _ _)) by exact Hlen.
  rewrite bool_decide_eq_true_2; [eauto|].
  intros k row [Hk Hin]%map_lookup_filter_Some. now apply H.
Qed.

(** A single [?] is always accepted. *)
Lemma one_host_parameter (k : string) :
  Z.of_nat (length [k]) <= Z.pos SQLITE_MAX_VARIABLE_NUMBER.
Proof. simpl. lia. Qed.

(** C10, as amended.  For every record whose float attributes SQLite
    stores as they are (any float but NaN, and but the negative zero, read
    back as the [0.0] it is equal to), whose [recommended_leverage] fits in
    64 bits and whose [last_updated] is a datetime, [save_metrics] returns
    and a following [get_metrics([pair])] returns the mapping of [pair] to
    that very record: every column is read back as written and the
    timestamp is recovered by parsing the ISO text stored for it. *)
Theorem save_get_roundtrip (metrics : PairMetrics) (db : table) :
  storable (leverage_adjustment metrics) ->
  storable (volatility_ratio metrics) ->
  storable (correlation_with_eth metrics) ->
  storable (avg_daily_movement metrics) ->
  fits_int64 (recommended_leverage metrics) = true ->
  valid_datetime (last_updated metrics) = true ->
  exists db',
    save_metrics metrics db = Ok db'
    /\ get_metrics [pair metrics] db' = Ok {[pair metrics := metrics]}.
Proof.
  intros H1 H2 H3 H4 Hi Hv. eexists. split; [now apply save_metrics_Ok|].
  pose proof (metrics_of_row_row_of metrics H1 H2 H3 H4 Hv) as Hrow.
  destruct (get_metrics_Ok [pair metrics]
              (<[pair metrics := row_of metrics]> db)) as [res Hres].
  { apply one_host_parameter. }
  { intros k row ->%list_elem_of_singleton. rewrite lookup_insert_eq.
    intros [= <-]. rewrite Hrow. eauto. }
  rewrite Hres. f_equal. apply map_eq. intros k.
  rewrite (get_metrics_lookup _ _ _ _ Hres).
  case_bool_decide as Hk.
  - apply list_elem_of_singleton in Hk as ->.
    rewrite lookup_insert_eq, lookup_singleton_eq. exact Hrow.
  - rewrite lookup_singleton_ne; [reflexivity|].
    intros <-. apply Hk. now apply list_elem_of_singleton.
Qed.

End HostParameters.

(** The bound of a default build of SQLite. *)
Definition default_max_variable_number : positive := 32766.

Definition sample_metrics : PairMetrics :=
  {| pair := "BTC/USDT:USDT";
     leverage_adjustment := Some 0.5%float;
     volatility_ratio := Some 3%float;
     correlation_with_eth := Some 0%float;
     avg_daily_movement := Some 0.05%float;
     recommended_leverage := 3;
     last_updated := mk_datetime 2024 3 9 2 0 7 1500 |}.

(** The round trip of [sample_metrics] through the empty table. *)
Lemma save_get_roundtrip_witness :
  exists db',
    save_metrics sample_metrics ∅ = Ok db'
    /\ get_metrics default_max_variable_number [pair sample_metrics] db'
       = Ok {[pair sample_metrics := sample_metrics]}.
Proof.
  apply (save_get_roundtrip default_max_variable_number sample_metrics ∅);
    reflexivity.
Defined.

(** A record the analysis of a two-bar history produces: one return, so
    a NaN volatility and a NaN volatility ratio. *)
Definition nan_metrics : PairMetrics :=
  {| pair := "NEW/USDT:USDT";
     leverage_adjustment := Some 1%float;
     volatility_ratio := Some nan;
     correlation_with_eth := Some 0%float;
     avg_daily_movement := Some 0.05%float;
     recommended_leverage := 10;
     last_updated := mk_datetime 2024 3 9 2 0 7 0 |}.

(** What [get_metrics] builds from the row written for [nan_metrics]. *)
Definition nan_metrics_read : PairMetrics :=
  {| pair := "NEW/USDT:USDT";
     leverage_adjustment := Some 1%float;
     volatility_ratio := None;
     correlation_with_eth := Some 0%float;
     avg_daily_movement := Some 0.05%float;
     recommended_leverage := 10;
     last_updated := mk_datetime 2024 3 9 2 0 7 0 |}.

(** [sample_metrics] saved twice over a row of its pair and a row of
    another pair. *)
Lemma save_metrics_idempotent_witness :
  let db : table :=
    {[pair sample_metrics := row_of nan_metrics;
      "ETH/USDT:USDT"%string := row_of nan_metrics]} in
  exists once,
    save_metrics sample_metrics db = Ok once
    /\ save_metrics sample_metrics once = Ok once
    /\ once !! pair sample_metrics = Some (row_of sample_metrics)
    /\ forall k, k <> pair sample_metrics -> once !! k = db !! k.
Proof.
  cbv zeta. apply save_metrics_idempotent. reflexivity.
Defined.

(** C10 fails as stated: the NaN is stored as NULL and read back as
    [None], so the record read is not the record saved. *)
Lemma save_get_nan_counterexample :
  save_metrics nan_metrics ∅ = Ok {[pair nan_metrics := row_of nan_metrics]}
  /\ get_metrics default_max_variable_number [pair nan_metrics]
       {[pair nan_metrics := row_of nan_metrics]}
     = Ok {[pair nan_metrics := nan_metrics_read]}
  /\ volatility_ratio nan_metrics = Some nan
  /\ volatility_ratio nan_metrics_read = None
  /\ nan_metrics_read <> nan_metrics.
Proof.
  split; [reflexivity|]. split; [vm_compute; reflexivity|].
  repeat split. discriminate.
Qed.

End Store.

(** ** The pandas operations the analyzer calls *)

Module Pandas.
Local Open Scope float_scope.

(** An index label: the timestamp of a bar (milliseconds), or a position
    of the default [RangeIndex].  A timestamp never equals a position. *)
Inductive label := Timestamp (ms : Z) | Position (i : Z).

#[global] Instance label_eq_dec : EqDecision label.
Proof. solve_decision. Defined.

(** A [pd.Series] of floats: values with their labels, in index order.
    Labels are taken distinct, as the timestamps of daily bars are. *)
Definition Series := list (label * float).

(** One OHLCV row of [fetch_ohlcv]. *)
Record bar := mk_bar {
  bar_timestamp : Z;
  bar_open : float; bar_high : float; bar_low : float;
  bar_close : float; bar_volume : float }.

(** The frame of [get_ohlcv_data], indexed by timestamp. *)
Definition DataFrame := list bar.

(** [df.empty] for a frame with its six columns: no row. *)
Definition df_empty (df : DataFrame) : bool :=
  match df with [] => true | _ => false end.

(** NaN is the missing value of pandas. *)
Definition notna (x : float) : Prop := is_nan x = false.

#[global] Instance notna_dec x : Decision (notna x).
Proof. unfold notna. apply _. Defined.

Definition column (f : bar -> float) (df : DataFrame) : Series :=
  map (fun b => (Timestamp (bar_timestamp b), f b)) df.

Definition dropna (s : Series) : Series := filter (fun p => notna p.2) s.

(** [Series.pct_change()]: [x / previous - 1], NaN at the first label.
    The values are taken present: the versions of pandas differ on whether
    a missing value is filled from the previous one first. *)
Fixpoint pct_change_from (previous : float) (s : Series) : Series :=
  match s with
  | [] => []
  | (l, x) :: s' => (l, x / previous - 1) :: pct_change_from x s'
  end.

Definition pct_change (s : Series) : Series :=
  match s with
  | [] => []
  | (l, x) :: s' => (l, nan) :: pct_change_from x s'
  end.

(** The value at a label, if the series has one. *)
Fixpoint series_get (l : label) (s : Series) : option float :=
  match s with
  | [] => None
  | (l', x) :: s' => if decide (l' = l) then Some x else series_get l s'
  end.

(** [pd.concat([a, b], axis=1)]: one row per label of either series (outer
    join), NaN where a series has no value for the label. *)
Definition concat_axis1 (a b : Series) : list (label * (float * float)) :=
  map (fun p => (p.1, (p.2, default nan (series_get p.1 b)))) a
  ++ map (fun p => (p.1, (nan, p.2)))
       (filter (fun p => series_get p.1 a = None) b).

(** [DataFrame.dropna()]: the rows without a NaN. *)
Definition dropna_rows (rows : list (label * (float * float)))
    : list (label * (float * float)) :=
  filter (fun r => notna r.2.1 /\ notna r.2.2) rows.

(** The time-aligned intersection of two series, as the specification
    words it: the points of [a] whose label [b] has too, both values
    being present. *)
Definition aligned_intersection (a b : Series) : list (float * float) :=
  omap (fun p =>
          y ← series_get p.1 b;
          if bool_decide (notna p.2 /\ notna y) then Some (p.2, y) else None)
       a.

Section Reductions.
(** The reductions of pandas over at least two (resp. one) present
    values: the sample standard deviation ([ddof = 1]), the mean and the
    Pearson correlation.  Their rounding depends on the summation order
    of the library, so they are kept abstract. *)
Variable sample_std : list float -> float.
Variable mean_of : list float -> float.
Variable pearson : list (float * float) -> float.

(** [Series.std()]: NaN unless two values at least are present. *)
Definition series_std (s : Series) : float :=
  let present := (dropna s).*2 in
  if (length present <? 2)%nat then nan else sample_std present.

(** [Series.mean()]: NaN when no value is present. *)
Definition series_mean (s : Series) : float :=
  let present := (dropna s).*2 in
  match present with
  | [] => nan
  | _ => mean_of present
  end.

(** [a.corr(b)] over the two columns of an aligned frame. *)
Definition frame_corr (rows : list (label * (float * float))) : float :=
  pearson rows.*2.

End Reductions.

(** Textbook instances of the reductions, evaluated left to right. *)
Definition sum_floats (xs : list float) : float :=
  fold_left (fun acc x => acc + x) xs 0.

Definition naive_mean (xs : list float) : float :=
  sum_floats xs / PyFloat.of_int (Z.of_nat (length xs)).

Definition naive_std (xs : list float) : float :=
  let m := naive_mean xs in
  sqrt (sum_floats (map (fun x => (x - m) * (x - m)) xs)
        / PyFloat.of_int (Z.of_nat (length xs) - 1)).

Definition naive_pearson (xys : list (float * float)) : float :=
  let mx := naive_mean xys.*1 in
  let my := naive_mean xys.*2 in
  let sxy := sum_floats (map (fun p => (p.1 - mx) * (p.2 - my)) xys) in
  let sxx := sum_floats (map (fun p => (p.1 - mx) * (p.1 - mx)) xys) in
  let syy := sum_floats (map (fun p => (p.2 - my) * (p.2 - my)) xys) in
  sxy / sqrt (sxx * syy).

End Pandas.

(** ** Python dicts that remember insertion order *)

Module PyDict.

Definition dict (V : Type) := list (string * V).

Fixpoint dict_get {V} (k : string) (d : dict V) : option V :=
  match d with
  | [] => None
  | (k', v) :: d' => if decide (k' = k) then Some v else dict_get k d'
  end.

(** [d[k] = v]: a present key keeps its place, a new key goes last. *)
Fixpoint dict_set {V} (k : string) (v : V) (d : dict V) : dict V :=
  match d with
  | [] => [(k, v)]
  | (k', v') :: d' =>
      if decide (k' = k) then (k, v) :: d' else (k', v') :: dict_set k v d'
  end.

Definition keys {V} (d : dict V) : list string := d.*1.

(** The distinct elements of a list, in the order of their first
    occurrence: the order in which they become keys. *)
Fixpoint first_occurrences (seen l : list string) : list string :=
  match l with
  | [] => []
  | k :: l' =>
      if decide (k ∈ seen) then first_occurrences seen l'
      else k :: first_occurrences (seen ++ [k]) l'
  end.

Lemma dict_get_set_eq {V} k (v : V) d : dict_get k (dict_set k v d) = Some v.
Proof.
  induction d as [|[k' v'] d IH]; simpl.
  - now rewrite decide_True.
  - destruct (decide (k' = k)) as [->|Hne]; simpl.
    + now rewrite decide_True.
    + now rewrite decide_False.
Qed.

Lemma dict_get_set_ne {V} k k' (v : V) d :
  k <> k' -> dict_get k' (dict_set k v d) = dict_get k' d.
Proof.
  intros Hne. induction d as [|[k0 v0] d IH]; simpl.
  - now rewrite decide_False.
  - destruct (decide (k0 = k)) as [->|Hne0]; simpl.
    + now rewrite !decide_False.
    + destruct (decide (k0 = k')); auto.
Qed.

Lemma keys_set_present {V} k (v : V) d :
  k ∈ keys d -> keys (dict_set k v d) = keys d.
Proof.
  unfold keys. induction d as [|[k' v'] d IH]; simpl.
  - intros H. inversion H.
  - intros H. destruct (decide (k' = k)) as [->|Hne]; simpl; [reflexivity|].
    f_equal. apply IH. apply elem_of_cons in H as [->|H]; [done|exact H].
Qed.

Lemma keys_set_absent {V} k (v : V) d :
  k ∉ keys d -> keys (dict_set k v d) = keys d ++ [k].
Proof.
  unfold keys. induction d as [|[k' v'] d IH]; simpl; [reflexivity|].
  intros H. apply not_elem_of_cons in H as [Hne Hd].
  rewrite decide_False by congruence. simpl. f_equal. now apply IH.
Qed.

Lemma dict_get_None {V} k (d : dict V) : dict_get k d = None <-> k ∉ keys d.
Proof.
  unfold keys. induction d as [|[k' v'] d IH]; simpl.
  - split; [intros _ H; inversion H|reflexivity].
  - destruct (decide (k' = k)) as [->|Hne].
    + split; [discriminate|]. intros H. exfalso. apply H. left.
    + rewrite IH, not_elem_of_cons. split; [auto|intros [_ H]; exact H].
Qed.

Lemma keys_set_NoDup {V} k (v : V) d :
  NoDup (keys d) -> NoDup (keys (dict_set k v d)).
Proof.
  intros H. destruct (decide (k ∈ keys d)) as [Hin|Hin].
  - now rewrite keys_set_present.
  - rewrite keys_set_absent by assumption.
    apply NoDup_app. repeat split; [exact H| |apply NoDup_singleton].
    intros x Hx ->%list_elem_of_singleton. contradiction.
Qed.

End PyDict.

(** ** TradingAnalyzer: statistics of a pair and of the benchmark *)

Module Analyzer.
Import PyDatetime Store Pandas PyDict.
Local Open Scope float_scope.

Definition DEFAULT_PAIRS : list string :=
  ["BTC/USDT:USDT"; "ETH/USDT:USDT"; "ADA/USDT:USDT"; "SOL/USDT:USDT";
   "MATIC/USDT:USDT"; "DOT/USDT:USDT"; "LINK/USDT:USDT"; "UNI/USDT:USDT"]%string.

(** The dict [eth_data] of [analyze_all_pairs]. *)
Record EthData := mk_EthData {
  volatility : float;
  avg_movement : float;
  returns : Series }.

Section WithExchange.
Variable sample_std : list float -> float.
Variable mean_of : list float -> float.
Variable pearson : list (float * float) -> float.

(** [exchange.fetch_ohlcv(symbol, '1d', since)] during one refresh cycle:
    the bars, or [None] when the call raises. *)
Variable fetch_ohlcv : string -> option DataFrame.

(** [get_ohlcv_data]: an exception is logged and yields the empty frame. *)
Definition get_ohlcv_data (symbol : string) : DataFrame :=
  match fetch_ohlcv symbol with
  | Some ohlcv => ohlcv
  | None => []
  end.

Definition calculate_daily_returns (df : DataFrame) : Series :=
  dropna (pct_change (column bar_close df)).

Definition calculate_volatility (returns : Series) : float :=
  series_std sample_std returns * sqrt 365.

Definition calculate_avg_daily_movement (df : DataFrame) : float :=
  let daily_movement :=
    column (fun b => (bar_high b - bar_low b) / bar_close b) df in
  series_mean mean_of daily_movement.

Definition calculate_correlation (returns1 returns2 : Series) : float :=
  let aligned_data := dropna_rows (concat_axis1 returns1 returns2) in
  if (length aligned_data <? 10)%nat then 0.0
  else frame_corr pearson aligned_data.

(** [analyze_pair], [now] being what [datetime.now()] returns in the call.
    No operation of the body raises on floats, so the [except] branch is
    never taken and [None] is returned for an empty frame only. *)
Definition analyze_pair (pair : string) (eth_data : EthData) (now : datetime)
    : option PairMetrics :=
  let pair_df := get_ohlcv_data pair in
  if df_empty pair_df then None
  else
    let pair_returns := calculate_daily_returns pair_df in
    let pair_volatility := calculate_volatility pair_returns in
    let pair_avg_movement := calculate_avg_daily_movement pair_df in
    let volatility_ratio :=
      if 0 <? volatility eth_data then pair_volatility / volatility eth_data
      else 1.0 in
    let leverage_adjustment :=
      calculate_leverage_adjustment pair_volatility (volatility eth_data)
        pair_avg_movement (avg_movement eth_data) in
    let correlation := calculate_correlation pair_returns (returns eth_data) in
    let recommended_leverage :=
      recommend_leverage leverage_adjustment volatility_ratio in
    Some {| Store.pair := pair;
            Store.leverage_adjustment := Some leverage_adjustment;
            Store.volatility_ratio := Some volatility_ratio;
            correlation_with_eth := Some correlation;
            avg_daily_movement := Some pair_avg_movement;
            Store.recommended_leverage := recommended_leverage;
            last_updated := now |}.

(** The benchmark reference: the defaults when the ETH frame is empty,
    the statistics of the frame otherwise. *)
Definition eth_reference : EthData :=
  let eth_df := get_ohlcv_data "ETH/USDT:USDT" in
  if df_empty eth_df then
    {| volatility := 0.8;
       avg_movement := 0.05;
       returns := [(Position 0, 0)] |}
  else
    let eth_returns := calculate_daily_returns eth_df in
    {| volatility := calculate_volatility eth_returns;
       avg_movement := calculate_avg_daily_movement eth_df;
       returns := eth_returns |}.

(** The loop of [analyze_all_pairs]; [clock i] is the time read while the
    [i]-th requested pair is analysed. *)
Fixpoint analyze_loop (eth_data : EthData) (clock : nat -> datetime)
    (i : nat) (pairs : list string) (results : dict PairMetrics)
    : dict PairMetrics :=
  match pairs with
  | [] => results
  | pair :: rest =>
      let results :=
        match analyze_pair pair eth_data (clock i) with
        | Some metrics => dict_set pair metrics results
        | None => results
        end in
      analyze_loop eth_data clock (S i) rest results
  end.

Definition analyze_all_pairs (clock : nat -> datetime) (pairs : list string)
    : dict PairMetrics :=
  analyze_loop eth_reference clock 0 pairs [].

(** *** Correlation and volatility *)

Lemma concat_axis1_right_dropped (a b : Series) :
  dropna_rows
    (map (fun p => (p.1, (nan, p.2)))
       (filter (fun p => series_get p.1 a = None) b)) = [].
Proof.
  unfold dropna_rows.
  induction (filter (fun p => series_get p.1 a = None) b) as [|p l IH];
    [reflexivity|].
  simpl. rewrite filter_cons_False; [exact IH|].
  simpl. intros [H _]. discriminate H.
Qed.

Lemma concat_axis1_left_kept (a b : Series) :
  (dropna_rows
     (map (fun p => (p.1, (p.2, default nan (series_get p.1 b)))) a)).*2
  = aligned_intersection a b.
Proof.
  unfold dropna_rows, aligned_intersection.
  induction a as [|[l x] a IH]; [reflexivity|].
  cbn [map omap list_omap fst snd].
  destruct (series_get l b) as [y|] eqn:E; cbn [mbind option_bind default].
  - case_bool_decide as Hxy.
    + rewrite filter_cons_True by exact Hxy. cbn [fmap list_fmap snd].
      f_equal. exact IH.
    + rewrite filter_cons_False by exact Hxy. exact IH.
  - rewrite filter_cons_False; [exact IH|].
    simpl. intros [_ H]. discriminate H.
Qed.

(** The rows that survive [concat] then [dropna] are the aligned
    intersection. *)
Lemma dropna_concat_axis1 (a b : Series) :
  (dropna_rows (concat_axis1 a b)).*2 = aligned_intersection a b.
Proof.
  unfold concat_axis1, dropna_rows. rewrite filter_app, fmap_app.
  fold (dropna_rows
          (map (fun p => (p.1, (nan, p.2)))
             (filter (fun p => series_get p.1 a = None) b))).
  rewrite concat_axis1_right_dropped, app_nil_r.
  apply concat_axis1_left_kept.
Qed.

(** C3. For every two return series, [calculate_correlation] returns
    exactly [0.0] when their time-aligned intersection has fewer than 10
    points, and otherwise the Pearson correlation of pandas over that
    intersection. *)
Theorem calculate_correlation_aligned (returns1 returns2 : Series) :
  let aligned := aligned_intersection returns1 returns2 in
  ((length aligned < 10)%nat ->
     calculate_correlation returns1 returns2 = 0)
  /\ ((10 <= length aligned)%nat ->
       calculate_correlation returns1 returns2 = pearson aligned).
Proof.
  cbv zeta. unfold calculate_correlation, frame_corr.
  rewrite <- dropna_concat_axis1, length_fmap.
  split; intros H.
  - now apply Nat.ltb_lt in H as ->.
  - now apply Nat.ltb_ge in H as ->.
Qed.

(** C4, as amended.  [calculate_volatility] is the standard deviation of
    pandas scaled by [sqrt(365)]: NaN, and not [0], when fewer than two
    returns are present (the empty series among them), and the sample
    standard deviation of the present returns times [sqrt(365)] from two
    returns on. *)
Theorem calculate_volatility_std (returns : Series) :
  calculate_volatility returns = series_std sample_std returns * sqrt 365
  /\ ((length (dropna returns) < 2)%nat ->
       calculate_volatility returns = nan)
  /\ ((2 <= length (dropna returns))%nat ->
       calculate_volatility returns
       = sample_std (dropna returns).*2 * sqrt 365).
Proof.
  unfold calculate_volatility, series_std. cbv zeta. rewrite length_fmap.
  split; [reflexivity|]. split; intros H.
  - now apply Nat.ltb_lt in H as ->.
  - now apply Nat.ltb_ge in H as ->.
Qed.

End WithExchange.

(** C3 on two series of twelve common days, and on the same series cut to
    nine. *)
Definition twelve_days (f : Z -> float) : Series :=
  map (fun i => (Timestamp (1700000000000 + 86400000 * i), f i))
    (seqZ 0 12).

Example calculate_correlation_examples :
  let a := twelve_days (fun i => PyFloat.of_int i) in
  let b := twelve_days (fun i => PyFloat.of_int (2 * i + 1)) in
  calculate_correlation naive_pearson a b = 1
  /\ calculate_correlation naive_pearson (take 9 a) b = 0
  /\ calculate_correlation naive_pearson a [(Position 0, 0)] = 0.
Proof. repeat split; vm_compute; reflexivity. Qed.

(** C4 fails as stated: on the empty series the result is NaN, which is
    not [0]. *)
Lemma calculate_volatility_empty_counterexample :
  calculate_volatility naive_std [] = nan
  /\ (calculate_volatility naive_std [] =? 0) = false
  /\ calculate_volatility naive_std [(Timestamp 0, 0.01)] = nan.
Proof. repeat split; reflexivity. Qed.

End Analyzer.

(** ** The refresh cycle: [update_metrics] and its two triggers *)

Module Refresh.
Import PyDatetime Store Pandas PyDict Analyzer.
Local Open Scope float_scope.

(** The JSON body of [POST /update-metrics]. *)
Inductive update_body :=
  | UpdateCompleted (pairs_updated : nat)
  | UpdateFailed (e : exn).

(** The loop [for pair, metrics in results.items(): save_metrics(metrics)]:
    the table reached, and the exception that ended the loop if one did.
    Rows saved before the exception stay committed. *)
Fixpoint save_all (items : dict PairMetrics) (db : table)
    : table * option exn :=
  match items with
  | [] => (db, None)
  | (_, metrics) :: rest =>
      match save_metrics metrics db with
      | Ok db' => save_all rest db'
      | Raise e => (db, Some e)
      end
  end.

Section WithExchange.
Variable sample_std : list float -> float.
Variable mean_of : list float -> float.
Variable pearson : list (float * float) -> float.
Variable fetch_ohlcv : string -> option DataFrame.
Variable clock : nat -> datetime.

Abbreviation analyze_pair := (analyze_pair sample_std mean_of pearson fetch_ohlcv).
Abbreviation analyze_loop := (analyze_loop sample_std mean_of pearson fetch_ohlcv).
Abbreviation analyze_all_pairs :=
  (analyze_all_pairs sample_std mean_of pearson fetch_ohlcv).
Abbreviation get_ohlcv_data := (get_ohlcv_data fetch_ohlcv).

(** [update_metrics(pairs)]; an exception is logged and raised again. *)
Definition update_metrics (pairs : option (list string)) (db : table)
    : table * option exn :=
  let pairs := default DEFAULT_PAIRS pairs in
  let results := analyze_all_pairs clock pairs in
  save_all results db.

(** [manual_update], [requested] being the [pairs] entry of the body when
    it has one: the table reached, the status and the body returned. *)
Definition manual_update (requested : option (list string)) (db : table)
    : table * (Z * update_body) :=
  let pairs := default DEFAULT_PAIRS requested in
  match update_metrics (Some pairs) db with
  | (db', None) => (db', (200%Z, UpdateCompleted (length pairs)))
  | (db', Some e) => (db', (500%Z, UpdateFailed e))
  end.

(** [scheduled_update]: the default pairs; an exception is logged only. *)
Definition scheduled_update (db : table) : table :=
  (update_metrics None db).1.

(** *** What a cycle writes *)

Definition savable (item : string * PairMetrics) : Prop :=
  pair item.2 = item.1 /\ fits_int64 (recommended_leverage item.2) = true.

Definition wf_results (d : dict PairMetrics) : Prop :=
  NoDup (keys d) /\ Forall savable d.

Lemma analyze_pair_Some p eth now metrics :
  analyze_pair p eth now = Some metrics ->
  savable (p, metrics) /\ last_updated metrics = now.
Proof.
  unfold analyze_pair. destruct (df_empty _); [discriminate|].
  intros [= <-]. repeat split. simpl.
  pose proof (recommend_leverage_range
    (calculate_leverage_adjustment
       (calculate_volatility sample_std
          (calculate_daily_returns (get_ohlcv_data p)))
       (volatility eth)
       (calculate_avg_daily_movement mean_of (get_ohlcv_data p))
       (avg_movement eth))
    (if 0 <? volatility eth
     then calculate_volatility sample_std
            (calculate_daily_returns (get_ohlcv_data p)) / volatility eth
     else 1)) as H.
  simpl in H.
  repeat (destruct H as [<-|H]; [reflexivity|]). destruct H.
Qed.

Lemma analyze_pair_available p eth now :
  get_ohlcv_data p <> [] -> is_Some (analyze_pair p eth now).
Proof.
  unfold analyze_pair. destruct (get_ohlcv_data p); [congruence|].
  simpl. eauto.
Qed.

Lemma analyze_pair_unavailable p eth now :
  get_ohlcv_data p = [] -> analyze_pair p eth now = None.
Proof. unfold analyze_pair. now intros ->. Qed.

Lemma Forall_savable_set k metrics (d : dict PairMetrics) :
  savable (k, metrics) -> Forall savable d ->
  Forall savable (dict_set k metrics d).
Proof.
  intros Hs. induction 1 as [|[k' m'] d Hk Hd IH]; simpl.
  - constructor; [exact Hs|constructor].
  - destruct (decide (k' = k)); constructor; auto.
Qed.

Lemma wf_results_set k metrics d :
  savable (k, metrics) -> wf_results d -> wf_results (dict_set k metrics d).
Proof.
  intros Hs [Hn Hf]. split;
    [now apply keys_set_NoDup|now apply Forall_savable_set].
Qed.

Lemma analyze_loop_wf eth pairs :
  forall i results, wf_results results ->
    wf_results (analyze_loop eth clock i pairs results).
Proof.
  induction pairs as [|p pairs IH]; intros i results Hwf; simpl; [exact Hwf|].
  apply IH. destruct (analyze_pair p eth (clock i)) as [m|] eqn:E; [|exact Hwf].
  apply wf_results_set; [|exact Hwf]. now apply analyze_pair_Some in E.
Qed.

(** A key that the remaining pairs do not name, or name without data,
    keeps its entry. *)
Lemma analyze_loop_get_untouched eth k pairs :
  (k ∈ pairs -> get_ohlcv_data k = []) ->
  forall i results,
    dict_get k (analyze_loop eth clock i pairs results) = dict_get k results.
Proof.
  induction pairs as [|p pairs IH]; intros Hk i results; simpl; [reflexivity|].
  rewrite IH by (intros H; apply Hk; now right).
  destruct (decide (p = k)) as [->|Hne].
  - rewrite analyze_pair_unavailable; [reflexivity|]. apply Hk. left.
  - destruct (analyze_pair p eth (clock i)); [|reflexivity].
    now apply dict_get_set_ne.
Qed.

(** A requested pair with data ends with the analysis of one of its
    occurrences. *)
Lemma analyze_loop_get_analysed eth k pairs :
  k ∈ pairs -> get_ohlcv_data k <> [] ->
  forall i results,
    exists j metrics,
      pairs !! j = Some k
      /\ analyze_pair k eth (clock (i + j)) = Some metrics
      /\ dict_get k (analyze_loop eth clock i pairs results) = Some metrics.
Proof.
  intros Hin Hdata. induction pairs as [|p pairs IH]; intros i results.
  - inversion Hin.
  - simpl. destruct (decide (k ∈ pairs)) as [Hk|Hk].
    + destruct (IH Hk (S i)
                  match analyze_pair p eth (clock i) with
                  | Some metrics => dict_set p metrics results
                  | None => results
                  end) as (j & m & Hj & Hm & Hget).
      exists (S j), m. rewrite Nat.add_succ_r. auto.
    + apply elem_of_cons in Hin as [->|Hin]; [|contradiction].
      destruct (analyze_pair_available p eth (clock i) Hdata) as [m Hm].
      exists 0%nat, m. rewrite Nat.add_0_r.
      split; [reflexivity|]. split; [exact Hm|]. rewrite Hm.
      rewrite analyze_loop_get_untouched by (intros H; contradiction).
      apply dict_get_set_eq.
Qed.

(** Saving well-formed results never raises and writes exactly their
    rows. *)
Lemma save_all_wf (d : dict PairMetrics) :
  wf_results d ->
  forall db, exists db',
    save_all d db = (db', None)
    /\ forall k, db' !! k = match dict_get k d with
                            | Some metrics => Some (row_of metrics)
                            | None => db !! k
                            end.
Proof.
  induction d as [|[k0 m0] d IH]; intros [Hn Hf] db.
  - exists db. split; [reflexivity|]. intros k. reflexivity.
  - apply NoDup_cons in Hn as [Hk0 Hn]. apply Forall_cons in Hf as [[Hp Hi] Hf].
    simpl in Hp, Hi, Hk0. subst k0.
    destruct (IH (conj Hn Hf) (<[pair m0 := row_of m0]> db)) as (db' & Hs & Hl).
    exists db'. simpl. rewrite save_metrics_Ok, Hs by exact Hi.
    split; [reflexivity|]. intros k. rewrite Hl. cbn [dict_get].
    destruct (decide (pair m0 = k)) as [<-|Hne].
    + apply dict_get_None in Hk0 as ->. apply lookup_insert_eq.
    + destruct (dict_get k d); [reflexivity|]. now apply lookup_insert_ne.
Qed.

Lemma update_metrics_lookup pairs db :
  exists db',
    update_metrics (Some pairs) db = (db', None)
    /\ forall k,
         db' !! k = match dict_get k (analyze_all_pairs clock pairs) with
                    | Some metrics => Some (row_of metrics)
                    | None => db !! k
                    end.
Proof.
  unfold update_metrics. simpl. apply save_all_wf.
  apply analyze_loop_wf. split; constructor.
Qed.

(** The statistics of a pair use timestamps as labels only, so no label
    is shared with the returns of the default benchmark. *)
Lemma aligned_intersection_default (a : Series) x :
  Forall (fun p => exists ms, p.1 = Timestamp ms) a ->
  aligned_intersection a [(Position 0, x)] = [].
Proof.
  unfold aligned_intersection. induction 1 as [|[l v] a [ms Hl] Ha IH];
    [reflexivity|].
  simpl in Hl. subst l. cbn [omap list_omap fst snd series_get].
  rewrite decide_False by discriminate. exact IH.
Qed.

Lemma pct_change_from_labels previous (s : Series) :
  Forall (fun p => exists ms, p.1 = Timestamp ms) s ->
  Forall (fun p => exists ms, p.1 = Timestamp ms) (pct_change_from previous s).
Proof.
  intros H. revert previous.
  induction H as [|[l v] s Hl Hs IH]; intros previous; simpl; constructor;
    auto.
Qed.

Lemma calculate_daily_returns_labels df :
  Forall (fun p => exists ms, p.1 = Timestamp ms) (calculate_daily_returns df).
Proof.
  unfold calculate_daily_returns, dropna. apply List.Forall_forall.
  intros p Hp%list_elem_of_In%list_elem_of_filter. destruct Hp as [_ Hp].
  revert p Hp. apply Forall_forall.
  assert (Hc : Forall (fun p : label * float => exists ms, p.1 = Timestamp ms)
                 (column bar_close df)).
  { unfold column. induction df; simpl; constructor; simpl; eauto. }
  destruct Hc as [|[l v] s Hl Hs]; simpl; constructor; auto.
  now apply pct_change_from_labels.
Qed.

Lemma calculate_correlation_default df x :
  calculate_correlation pearson
    (calculate_daily_returns df) [(Position 0, x)] = 0.
Proof.
  unfold calculate_correlation.
  rewrite <- (length_fmap snd), dropna_concat_axis1.
  rewrite aligned_intersection_default; [reflexivity|].
  apply calculate_daily_returns_labels.
Qed.

(** The part of C6 that holds: a pair without data is skipped, its row
    (if any) left as it was, and the cycle goes on to write the analysis
    of every requested pair that has data. *)
Lemma refresh_skips_unavailable (pairs : list string) (db : table) :
  exists db',
    update_metrics (Some pairs) db = (db', None)
    /\ (forall k, get_ohlcv_data k = [] -> db' !! k = db !! k)
    /\ (forall k, k ∈ pairs -> get_ohlcv_data k <> [] ->
          exists i metrics,
            pairs !! i = Some k
            /\ analyze_pair k (eth_reference sample_std mean_of fetch_ohlcv)
                 (clock i) = Some metrics
            /\ db' !! k = Some (row_of metrics)).
Proof.
  destruct (update_metrics_lookup pairs db) as (db' & Hu & Hl).
  exists db'. split; [exact Hu|]. split.
  - intros k Hk. rewrite Hl. unfold Analyzer.analyze_all_pairs.
    now rewrite analyze_loop_get_untouched.
  - intros k Hin Hk.
    destruct (analyze_loop_get_analysed
                (eth_reference sample_std mean_of fetch_ohlcv) k pairs
                Hin Hk 0%nat []) as (j & m & Hj & Hm & Hget).
    exists j, m. rewrite Hl. unfold Analyzer.analyze_all_pairs.
    now rewrite Hget.
Qed.

(** The report counts the requested pairs, whatever was written. *)
Lemma manual_update_reports_length (requested : option (list string))
    (db : table) :
  exists db',
    manual_update requested db
    = (db', (200%Z,
             UpdateCompleted (length (default DEFAULT_PAIRS requested)))).
Proof.
  unfold manual_update.
  destruct (update_metrics_lookup (default DEFAULT_PAIRS requested) db)
    as (db' & -> & _).
  eauto.
Qed.

(** C7. When the benchmark frame is empty (the fetch raised or returned
    no bar), the cycle does not abort: [update_metrics] returns, and every
    requested pair with data has the row of its analysis against the
    default reference (volatility [0.8], average movement [0.05], the
    one-point returns series, hence correlation [0.0]). *)
Theorem refresh_with_default_benchmark (pairs : list string) (db : table) :
  get_ohlcv_data "ETH/USDT:USDT" = [] ->
  exists db',
    update_metrics (Some pairs) db = (db', None)
    /\ forall k, k ∈ pairs -> get_ohlcv_data k <> [] ->
         exists i metrics,
           pairs !! i = Some k
           /\ analyze_pair k
                {| volatility := 0.8;
                   avg_movement := 0.05;
                   returns := [(Position 0, 0)] |} (clock i) = Some metrics
           /\ correlation_with_eth metrics = Some 0
           /\ db' !! k = Some (row_of metrics).
Proof.
  intros Heth.
  destruct (update_metrics_lookup pairs db) as (db' & Hu & Hl).
  exists db'. split; [exact Hu|]. intros k Hin Hk.
  unfold Analyzer.analyze_all_pairs, eth_reference in Hl.
  rewrite Heth in Hl. cbn [df_empty] in Hl.
  destruct (analyze_loop_get_analysed
              {| volatility := 0.8; avg_movement := 0.05;
                 returns := [(Position 0, 0)] |} k pairs
              Hin Hk 0%nat []) as (j & m & Hj & Hm & Hget).
  exists j, m. rewrite Hl, Hget. repeat split; try assumption.
  simpl in Hm. unfold Analyzer.analyze_pair in Hm.
  destruct (df_empty _); [discriminate|]. injection Hm as <-.
  cbn [correlation_with_eth returns]. f_equal.
  apply calculate_correlation_default.
Qed.

End WithExchange.

(** *** A cycle against an exchange that serves one pair only *)

Definition btc_bars : DataFrame :=
  [mk_bar 1709856000000 100 110 95 105 1000;
   mk_bar 1709942400000 105 108 99 102 1200;
   mk_bar 1710028800000 102 112 101 110 900].

Definition btc_only_exchange (symbol : string) : option DataFrame :=
  if decide (symbol = "BTC/USDT:USDT"%string) then Some btc_bars else None.

Definition night_clock (i : nat) : datetime :=
  mk_datetime 2024 3 10 2 0 (Z.of_nat i) 0.

(** A cycle against [btc_only_exchange], whose benchmark fetch raises. *)
Lemma refresh_with_default_benchmark_witness :
  get_ohlcv_data btc_only_exchange "ETH/USDT:USDT" = []
  /\ exists db',
       update_metrics naive_std naive_mean naive_pearson btc_only_exchange
         night_clock (Some ["ETH/USDT:USDT"; "BTC/USDT:USDT"]%string) ∅
       = (db', None)
       /\ forall k, k ∈ ["ETH/USDT:USDT"; "BTC/USDT:USDT"]%string ->
            get_ohlcv_data btc_only_exchange k <> [] ->
            exists i metrics,
              ["ETH/USDT:USDT"; "BTC/USDT:USDT"]%string !! i = Some k
              /\ analyze_pair naive_std naive_mean naive_pearson
                   btc_only_exchange k
                   {| volatility := 0.8;
                      avg_movement := 0.05;
                      returns := [(Position 0, 0)] |} (night_clock i)
                 = Some metrics
              /\ correlation_with_eth metrics = Some 0
              /\ db' !! k = Some (row_of metrics).
Proof.
  split; [reflexivity|].
  apply (refresh_with_default_benchmark naive_std naive_mean naive_pearson
           btc_only_exchange night_clock). reflexivity.
Defined.

(** C6, at a request for a pair without data and a pair with data:
    the first is skipped and the second written, yet the report says
    [pairs_updated = 2]. *)
Theorem manual_update_counts_requested :
  let outcome :=
    manual_update naive_std naive_mean naive_pearson btc_only_exchange
      night_clock (Some ["DOGE/USDT:USDT"; "BTC/USDT:USDT"]%string) ∅ in
  outcome.2 = (200%Z, UpdateCompleted 2)
  /\ outcome.1 !! "DOGE/USDT:USDT"%string = None
  /\ is_Some (outcome.1 !! "BTC/USDT:USDT"%string)
  /\ size outcome.1 = 1%nat
  /\ length (analyze_all_pairs naive_std naive_mean naive_pearson
               btc_only_exchange night_clock
               ["DOGE/USDT:USDT"; "BTC/USDT:USDT"]%string) = 1%nat.
Proof.
  cbv zeta. split; [vm_compute; reflexivity|].
  split; [vm_compute; reflexivity|].
  split; [vm_compute; eauto|].
  split; vm_compute; reflexivity.
Qed.

End Refresh.

(** ** The query endpoint [POST /leverage-adjustment] *)

Module Query.
Import PyDatetime Store PyDict.

Definition result_bind {A B} (r : result A) (f : A -> result B) : result B :=
  match r with
  | Ok a => f a
  | Raise e => Raise e
  end.

Notation "x <- r ;; k" := (result_bind r (fun x => k))
  (at level 100, r at next level, right associativity, only parsing).

(** The integer nearest to [a / b] for [b > 0], ties going to the even
    one. *)
Definition round_half_even_div (a b : Z) : Z :=
  let q := a / b in
  let r := a mod b in
  match 2 * r ?= b with
  | Lt => q
  | Gt => q + 1
  | Eq => if Z.even q then q else q + 1
  end.

(** The builtin [round(x, ndigits)] on a float, for [0 <= ndigits]: the
    exact value of [x] is rounded to the nearest multiple of
    [10 ^ -ndigits], ties to even, and the float nearest to that decimal
    is returned.  NaN and the infinities round to themselves. *)
Definition py_round (x : float) (ndigits : Z) : float :=
  match Prim2SF x with
  | S754_finite s m e =>
      let scale := 10 ^ ndigits in
      let n := if 0 <=? e then Zpos m * 2 ^ e * scale
               else round_half_even_div (Zpos m * scale) (2 ^ (- e)) in
      match n with
      | Zpos p =>
          SF2Prim (SFdiv prec emax (S754_finite s p 0)
                     (S754_finite false (Z.to_pos scale) 0))
      | _ => SF2Prim (S754_zero s)
      end
  | _ => x
  end.

Example py_round_examples :
  py_round 0.12345 4 = 0.1235%float
  /\ py_round 1.00005 4 = 1.0001%float
  /\ py_round 0.00025 4 = 0.0003%float
  /\ py_round 0.00035 4 = 0.0003%float
  /\ py_round (-0.00001) 4 = (-0)%float
  /\ py_round 0.5000000000000001 4 = 0.5%float
  /\ py_round 123456789012.12345 4 = 123456789012.1234%float
  /\ py_round 1e300 4 = 1e300%float
  /\ py_round infinity 4 = infinity
  /\ py_round nan 4 = nan.
Proof. repeat split; vm_compute; reflexivity. Qed.

(** [round(v, 4)] on an attribute: [None] has no [__round__]. *)
Definition round4 (v : option float) : result float :=
  match v with
  | Some x => Ok (py_round x 4)
  | None => Raise TypeError
  end.

(** One value of the response dict. *)
Inductive entry :=
  | Found (leverage_adjustment volatility_ratio correlation_with_eth
             avg_daily_movement : float)
          (recommended_leverage : Z) (last_updated : string)
  | NotFound (error : string) (leverage_adjustment : float)
             (recommended_leverage : Z).

(** The JSON object of the answer: for [Response], its members in the
    order of the text [jsonify] writes. *)
Inductive query_body :=
  | Response (response : dict entry)
  | NoPairsProvided
  | Failure (e : exn).

(** Python orders [str] by code points, which is the order of the bytes
    of their UTF-8 text. *)
Definition str_le (a b : string) : Prop := String.leb a b = true.
Definition str_lt (a b : string) : Prop := String.ltb a b = true.

Definition key_le {V} (a b : string * V) : Prop := str_le a.1 b.1.

#[global] Instance key_le_dec {V} (a b : string * V) : Decision (key_le a b).
Proof. unfold key_le, str_le. apply _. Defined.

(** [jsonify(d)] on a dict: Flask writes the members of a JSON object
    sorted by key ([sort_keys], on by default and left so by the
    application). *)
Definition jsonify {V} (d : dict V) : dict V := merge_sort key_le d.

(** The dict literal built for a pair found in [metrics]. *)
Definition found_entry (m : PairMetrics) : result entry :=
  la <- round4 (leverage_adjustment m);;
  vr <- round4 (volatility_ratio m);;
  corr <- round4 (correlation_with_eth m);;
  adm <- round4 (avg_daily_movement m);;
  Ok (Found la vr corr adm (recommended_leverage m)
        (isoformat "T" (last_updated m))).

Definition not_found_entry : entry :=
  NotFound "Pair not found in database" 1.0 5.

(** The loop [for pair in pairs] that fills [response]. *)
Fixpoint build_response (metrics : gmap string PairMetrics)
    (pairs : list string) (response : dict entry) : result (dict entry) :=
  match pairs with
  | [] => Ok response
  | pair :: rest =>
      e <- match metrics !! pair with
           | Some m => found_entry m
           | None => Ok not_found_entry
           end;;
      build_response metrics rest (dict_set pair e response)
  end.

Section HostParameters.
Variable SQLITE_MAX_VARIABLE_NUMBER : positive.

(** The body of [get_leverage_adjustment] behind its API-key decorator,
    [pairs] being [data.get('pairs', [])]: the status and the body. *)
Definition get_leverage_adjustment (pairs : list string) (db : table)
    : Z * query_body :=
  match pairs with
  | [] => (400, NoPairsProvided)
  | _ =>
      match
        (metrics <- get_metrics SQLITE_MAX_VARIABLE_NUMBER pairs db;;
         build_response metrics pairs [])
      with
      | Ok response => (200, Response (jsonify response))
      | Raise e => (500, Failure e)
      end
  end.

End HostParameters.

(** *** What the lookup returns *)

(** A row the endpoint can serve: its timestamp text parses and none of
    its four REAL columns is NULL. *)
Definition servable (row : Row) : bool :=
  bool_decide (is_Some (fromisoformat (col_last_updated row)))
  && bool_decide (is_Some (col_leverage_adjustment row))
  && bool_decide (is_Some (col_volatility_ratio row))
  && bool_decide (is_Some (col_correlation_with_eth row))
  && bool_decide (is_Some (col_avg_daily_movement row)).

Definition all_servable (pairs : list string) (db : table) : bool :=
  forallb (fun k => match db !! k with
                    | Some row => servable row
                    | None => true
                    end) pairs.

(** The record the specification promises for a symbol: the stored row
    with its four float columns rounded to 4 places, or the fallback. *)
Definition expected_entry (db : table) (k : string) : option entry :=
  match db !! k with
  | Some row =>
      la ← col_leverage_adjustment row;
      vr ← col_volatility_ratio row;
      corr ← col_correlation_with_eth row;
      adm ← col_avg_daily_movement row;
      dt ← fromisoformat (col_last_updated row);
      Some (Found (py_round la 4) (py_round vr 4) (py_round corr 4)
              (py_round adm 4) (col_recommended_leverage row)
              (isoformat "T" dt))
  | None => Some (NotFound "Pair not found in database" 1 5)
  end.

Lemma served_entry (metrics : gmap string PairMetrics) (db : table) k :
  metrics !! k = db !! k ≫= metrics_of_row k ->
  match db !! k with Some row => servable row | None => true end = true ->
  exists e,
    match metrics !! k with
    | Some m => found_entry m
    | None => Ok not_found_entry
    end = Ok e
    /\ expected_entry db k = Some e.
Proof.
  intros -> Hs. unfold expected_entry. destruct (db !! k) as [row|]; simpl.
  - unfold servable in Hs. rewrite !andb_true_iff, !bool_decide_eq_true in Hs.
    destruct Hs as [[[[[dt Hdt] [la Hla]] [vr Hvr]] [corr Hcorr]] [adm Hadm]].
    unfold metrics_of_row, found_entry. rewrite Hdt, Hla, Hvr, Hcorr, Hadm.
    simpl. eauto.
  - eauto.
Qed.

Lemma build_response_spec (metrics : gmap string PairMetrics) (db : table)
    (pairs : list string) :
  (forall k, k ∈ pairs -> metrics !! k = db !! k ≫= metrics_of_row k) ->
  all_servable pairs db = true ->
  forall response, exists r,
    build_response metrics pairs response = Ok r
    /\ keys r = keys response ++ first_occurrences (keys response) pairs
    /\ (forall k, k ∈ pairs -> dict_get k r = expected_entry db k)
    /\ (forall k, k ∉ pairs -> dict_get k r = dict_get k response).
Proof.
  induction pairs as [|p pairs IH]; intros Hm Hs response.
  - exists response. simpl. rewrite app_nil_r. repeat split; auto.
    intros k Hk. inversion Hk.
  - apply andb_true_iff in Hs as [Hp Hs].
    destruct (served_entry metrics db p (Hm p ltac:(left)) Hp) as (e & He & Hexp).
    destruct (IH (fun k Hk => Hm k ltac:(now right)) Hs (dict_set p e response))
      as (r & Hr & Hkeys & Hin & Hout).
    exists r. cbn [build_response]. rewrite He. cbn [result_bind].
    split; [exact Hr|]. split; [|split].
    + rewrite Hkeys. cbn [first_occurrences].
      destruct (decide (p ∈ keys response)) as [Hk|Hk].
      * now rewrite keys_set_present.
      * rewrite keys_set_absent by exact Hk. now rewrite <- app_assoc.
    + intros k Hk. destruct (decide (k ∈ pairs)) as [Hk'|Hk']; [auto|].
      apply elem_of_cons in Hk as [->|Hk]; [|contradiction].
      rewrite Hout by exact Hk'. rewrite dict_get_set_eq. now symmetry.
    + intros k Hk. apply not_elem_of_cons in Hk as [Hne Hk].
      rewrite Hout by exact Hk. apply dict_get_set_ne. congruence.
Qed.

Lemma str_le_trans a b c : str_le a b -> str_le b c -> str_le a c.
Proof.
  unfold str_le, String.leb. revert b c.
  induction a as [|x a IH]; intros [|y b] [|z c]; simpl; try congruence.
  unfold Ascii.compare.
  destruct (N.compare_spec (N_of_ascii x) (N_of_ascii y)) as [Exy|Hxy|Hxy],
           (N.compare_spec (N_of_ascii y) (N_of_ascii z)) as [Eyz|Hyz|Hyz],
           (N.compare_spec (N_of_ascii x) (N_of_ascii z)) as [Exz|Hxz|Hxz];
    try congruence; try lia.
  apply IH.
Qed.

Lemma str_le_lt a b : str_le a b -> a <> b -> str_lt a b.
Proof.
  unfold str_le, str_lt, String.leb, String.ltb. intros Hle Hne.
  destruct (String.compare a b) eqn:E; try congruence.
  now apply String.compare_eq_iff in E.
Qed.

#[global] Instance key_le_trans {V} : Transitive (@key_le V).
Proof. intros a b c. apply str_le_trans. Qed.

#[global] Instance key_le_total {V} : Total (@key_le V).
Proof. intros a b. apply String.leb_total. Qed.

Lemma jsonify_Permutation {V} (d : dict V) : jsonify d ≡ₚ d.
Proof. apply merge_sort_Permutation. Qed.

Lemma StronglySorted_strict (l : list string) :
  NoDup l -> StronglySorted str_le l -> StronglySorted str_lt l.
Proof.
  induction 2 as [|k l Hs IH Hall]; constructor.
  - apply IH. now apply NoDup_cons in H as [_ H].
  - apply NoDup_cons in H as [Hk _]. rewrite Forall_forall in Hall |- *.
    intros x Hx. apply str_le_lt; [now apply Hall|]. now intros ->.
Qed.

(** The keys of the JSON object: those of the dict, in increasing
    order. *)
Lemma keys_jsonify {V} (d : dict V) :
  NoDup (keys d) ->
  StronglySorted str_lt (keys (jsonify d))
  /\ forall k, k ∈ keys (jsonify d) <-> k ∈ keys d.
Proof.
  intros Hd.
  assert (Hp : keys (jsonify d) ≡ₚ keys d)
    by (unfold keys; now rewrite jsonify_Permutation).
  split; [|intros k; now rewrite Hp].
  apply StronglySorted_strict; [now rewrite Hp|].
  unfold keys. apply (StronglySorted_fmap fst key_le str_le); [auto|].
  apply StronglySorted_merge_sort; apply _.
Qed.

Lemma dict_get_Some {V} k (v : V) (d : dict V) :
  NoDup (keys d) -> dict_get k d = Some v <-> (k, v) ∈ d.
Proof.
  unfold keys. induction d as [|[k' v'] d IH]; simpl; intros Hd.
  - split; [discriminate|]. intros H. inversion H.
  - apply NoDup_cons in Hd as [Hk Hd]. rewrite elem_of_cons.
    destruct (decide (k' = k)) as [->|Hne].
    + split; [intros [= ->]; now left|].
      intros [[= ->]|Hin]; [reflexivity|].
      exfalso. apply Hk. apply list_elem_of_fmap. now exists (k, v).
    + rewrite (IH Hd). split; [now right|].
      intros [[= ? ?]|Hin]; [congruence|exact Hin].
Qed.

(** Sorting the keys changes no value. *)
Lemma dict_get_jsonify {V} k (d : dict V) :
  NoDup (keys d) -> dict_get k (jsonify d) = dict_get k d.
Proof.
  intros Hd.
  assert (Hd' : NoDup (keys (jsonify d)))
    by (unfold keys; now rewrite jsonify_Permutation).
  apply option_eq. intros v.
  rewrite !dict_get_Some by assumption. now rewrite jsonify_Permutation.
Qed.

Example jsonify_example :
  jsonify [("b", 1); ("a", 2); ("B", 3)]%string
  = [("B", 3); ("a", 2); ("b", 1)]%string.
Proof. vm_compute. reflexivity. Qed.

(** The keys of the dict the loop builds: the distinct requested
    symbols. *)
Lemma build_response_keys (metrics : gmap string PairMetrics)
    (pairs : list string) :
  forall response r,
    build_response metrics pairs response = Ok r ->
    NoDup (keys response) ->
    NoDup (keys r)
    /\ forall k, k ∈ keys r <-> k ∈ keys response \/ k ∈ pairs.
Proof.
  induction pairs as [|p pairs IH]; intros response r; cbn [build_response].
  - intros [= <-] Hd. split; [exact Hd|]. intros k. rewrite elem_of_nil. tauto.
  - destruct (match metrics !! p with
              | Some m => found_entry m
              | None => Ok not_found_entry
              end) as [e|e]; cbn [result_bind]; [|discriminate].
    intros Hr Hd.
    destruct (IH _ _ Hr (keys_set_NoDup p e response Hd)) as [Hnd Hk].
    split; [exact Hnd|]. intros k. rewrite Hk, elem_of_cons.
    destruct (decide (p ∈ keys response)) as [Hp|Hp].
    + rewrite keys_set_present by exact Hp. split; [tauto|].
      intros [H|[->|H]]; tauto.
    + rewrite keys_set_absent, elem_of_app, list_elem_of_singleton
        by exact Hp. tauto.
Qed.

Lemma all_servable_parses (pairs : list string) (db : table) k row :
  all_servable pairs db = true -> k ∈ pairs -> db !! k = Some row ->
  is_Some (metrics_of_row k row).
Proof.
  unfold all_servable. rewrite forallb_forall. intros H Hk Hrow.
  specialize (H k ltac:(now apply list_elem_of_In)). rewrite Hrow in H.
  unfold servable in H. rewrite !andb_true_iff, bool_decide_eq_true in H.
  destruct H as [[[[[dt Hdt] _] _] _] _].
  unfold metrics_of_row. rewrite Hdt. simpl. eauto.
Qed.

(** C5, as amended.  For every request that is not empty and holds no
    more symbols than SQLite accepts host parameters, and every table
    whose requested rows can be served (timestamp text that parses, no
    NULL in the four float columns), the lookup answers 200 with a JSON
    object of one record per distinct requested symbol, its keys in
    increasing order (not in request order): the stored row with its four
    float columns rounded to 4 decimal places for a symbol of the table,
    and the fallback record (1.0, 5, tagged not found) for any other
    symbol. *)
Theorem lookup_answers_every_symbol (SQLITE_MAX_VARIABLE_NUMBER : positive)
    (pairs : list string) (db : table) :
  pairs <> [] ->
  Z.of_nat (length pairs) <= Z.pos SQLITE_MAX_VARIABLE_NUMBER ->
  all_servable pairs db = true ->
  exists response,
    get_leverage_adjustment SQLITE_MAX_VARIABLE_NUMBER pairs db
    = (200, Response response)
    /\ StronglySorted str_lt (keys response)
    /\ (forall k, k ∈ keys response <-> k ∈ pairs)
    /\ forall k, k ∈ pairs ->
         dict_get k response = expected_entry db k
         /\ is_Some (dict_get k response)
         /\ (db !! k = None ->
             dict_get k response
             = Some (NotFound "Pair not found in database" 1 5)).
Proof.
  intros Hne Hlen Hs.
  destruct (get_metrics_Ok SQLITE_MAX_VARIABLE_NUMBER pairs db Hlen)
    as [metrics Hget].
  { intros k row Hk Hrow. now apply (all_servable_parses pairs db). }
  destruct (build_response_spec metrics db pairs) with (response := @nil (string * entry))
    as (r & Hr & _ & Hin & _); [|exact Hs|].
  { intros k Hk. rewrite (get_metrics_lookup _ _ _ _ k Hget).
    now rewrite bool_decide_eq_true_2. }
  destruct (build_response_keys metrics pairs [] r Hr) as [Hnd Hkeys];
    [constructor|].
  destruct (keys_jsonify r Hnd) as [Hsorted Hmem].
  exists (jsonify r). unfold get_leverage_adjustment.
  destruct pairs as [|p pairs']; [congruence|].
  rewrite Hget. cbn [result_bind]. rewrite Hr.
  split; [reflexivity|]. split; [exact Hsorted|]. split.
  { intros k. rewrite Hmem, Hkeys. cbn [keys fmap list_fmap].
    rewrite elem_of_nil. tauto. }
  intros k Hk. rewrite dict_get_jsonify by exact Hnd.
  assert (Hsome : is_Some (dict_get k r)).
  { destruct (dict_get k r) eqn:E; [eauto|].
    apply dict_get_None in E. exfalso. apply E, Hkeys. now right. }
  split; [now apply Hin|]. split; [exact Hsome|].
  intros Hnone. rewrite (Hin k Hk). unfold expected_entry. now rewrite Hnone.
Qed.

(** A request naming a stored pair once and an unknown symbol twice. *)
Lemma lookup_answers_every_symbol_witness :
  let pairs := ["UNKNOWN/USDT"; "BTC/USDT:USDT"; "UNKNOWN/USDT"]%string in
  let db : table := {[pair sample_metrics := row_of sample_metrics]} in
  exists response,
    get_leverage_adjustment default_max_variable_number pairs db
    = (200, Response response)
    /\ StronglySorted str_lt (keys response)
    /\ (forall k, k ∈ keys response <-> k ∈ pairs)
    /\ forall k, k ∈ pairs ->
         dict_get k response = expected_entry db k
         /\ is_Some (dict_get k response)
         /\ (db !! k = None ->
             dict_get k response
             = Some (NotFound "Pair not found in database" 1 5)).
Proof.
  apply (lookup_answers_every_symbol default_max_variable_number
           ["UNKNOWN/USDT"; "BTC/USDT:USDT"; "UNKNOWN/USDT"]%string
           {[pair sample_metrics := row_of sample_metrics]});
    [discriminate|vm_compute; discriminate|vm_compute; reflexivity].
Defined.

(** Scenario D: an unknown symbol on an empty table. *)
Example scenario_D :
  get_leverage_adjustment default_max_variable_number
    ["UNKNOWN/USDT"]%string ∅
  = (200, Response [("UNKNOWN/USDT"%string,
                     NotFound "Pair not found in database" 1 5)]).
Proof. vm_compute. reflexivity. Qed.

(** C5 fails as stated: the empty request is answered by the error 400;
    on a table holding the row of a record saved with a NaN, the NULL read
    back as [None] cannot be rounded and the answer is the error 500; a
    request longer than the bound on host parameters is answered by the
    error 500 too; and the records of two unknown symbols come back in
    the order of their keys, not of the request. *)
Lemma lookup_counterexample :
  get_leverage_adjustment default_max_variable_number [] ∅
  = (400, NoPairsProvided)
  /\ get_leverage_adjustment default_max_variable_number [pair nan_metrics]
       {[pair nan_metrics := row_of nan_metrics]}
     = (500, Failure TypeError)
  /\ get_leverage_adjustment default_max_variable_number
       (replicate (Z.to_nat 32767) "UNKNOWN/USDT"%string) ∅
     = (500, Failure OperationalError)
  /\ get_leverage_adjustment default_max_variable_number
       ["SOL/USDT"; "ADA/USDT"]%string ∅
     = (200, Response [("ADA/USDT"%string,
                        NotFound "Pair not found in database" 1 5);
                       ("SOL/USDT"%string,
                        NotFound "Pair not found in database" 1 5)]).
Proof.
  split; [reflexivity|]. split; [vm_compute; reflexivity|].
  split; vm_compute; reflexivity.
Qed.

End Query.

(** ** Refresh cycles running at the same time *)

Module Concurrent.
Import PyDatetime Store Pandas PyDict Analyzer Refresh.

(** What starts a cycle: the scheduler job, or [POST /update-metrics]. *)
Inductive trigger :=
  | Scheduled
  | Manual (requested : option (list string)).

Definition trigger_pairs (t : trigger) : list string :=
  match t with
  | Scheduled => DEFAULT_PAIRS
  | Manual requested => default DEFAULT_PAIRS requested
  end.

(** The table, the results that the cycles in flight have still to save,
    and the results of every cycle started so far. *)
Record system := mk_system {
  sys_db : table;
  running : list (dict PairMetrics);
  started : list (dict PairMetrics) }.

Definition initial (db : table) : system := mk_system db [] [].

Section Steps.
Variable sample_std : list float -> float.
Variable mean_of : list float -> float.
Variable pearson : list (float * float) -> float.

(** One step of the process.  [update_metrics] reads no flag and takes no
    lock, so a trigger starts a cycle whatever is running; the scheduler
    thread and the request threads then advance their cycles in any
    order, one committed [save_metrics] at a time. *)
Inductive step : system -> system -> Prop :=
  | step_start st t fetch_ohlcv clock :
      let results :=
        analyze_all_pairs sample_std mean_of pearson fetch_ohlcv clock
          (trigger_pairs t) in
      step st (mk_system (sys_db st) (results :: running st)
                 (results :: started st))
  | step_save st before k metrics rest after db' :
      running st = before ++ ((k, metrics) :: rest) :: after ->
      save_metrics metrics (sys_db st) = Ok db' ->
      step st (mk_system db' (before ++ rest :: after) (started st))
  | step_raise st before k metrics rest after e :
      running st = before ++ ((k, metrics) :: rest) :: after ->
      save_metrics metrics (sys_db st) = Raise e ->
      step st (mk_system (sys_db st) (before ++ after) (started st))
  | step_finish st before after :
      running st = before ++ [] :: after ->
      step st (mk_system (sys_db st) (before ++ after) (started st)).

(** Every row is the initial one or the whole row of one record of one
    started cycle. *)
Definition rows_whole (db0 : table) (st : system) : Prop :=
  forall k row,
    sys_db st !! k = Some row ->
    db0 !! k = Some row
    \/ exists results metrics,
         results ∈ started st
         /\ (k, metrics) ∈ results
         /\ row = row_of metrics.

Definition pending_started (st : system) : Prop :=
  forall c item, c ∈ running st -> item ∈ c ->
    exists results, results ∈ started st /\ item ∈ results.

Definition started_savable (st : system) : Prop :=
  forall results, results ∈ started st -> Forall (savable) results.

Definition invariant (db0 : table) (st : system) : Prop :=
  rows_whole db0 st /\ pending_started st /\ started_savable st.

Lemma invariant_initial db0 : invariant db0 (initial db0).
Proof.
  repeat split.
  - intros k row H. now left.
  - intros c item Hc. inversion Hc.
  - intros results H. inversion H.
Qed.

Lemma pending_drop (st : system) before (c c' : dict PairMetrics) after :
  running st = before ++ c :: after ->
  (forall item, item ∈ c' -> item ∈ c) ->
  pending_started st ->
  forall d item, d ∈ before ++ c' :: after -> item ∈ d ->
    exists results, results ∈ started st /\ item ∈ results.
Proof.
  intros Hrun Hsub Hp d item Hd Hitem.
  apply elem_of_app in Hd as [Hd|Hd].
  - apply (Hp d); [|exact Hitem]. rewrite Hrun. apply elem_of_app. now left.
  - apply elem_of_cons in Hd as [->|Hd].
    + apply (Hp c); [|now apply Hsub]. rewrite Hrun. apply elem_of_app.
      right. left.
    + apply (Hp d); [|exact Hitem]. rewrite Hrun. apply elem_of_app.
      right. now right.
Qed.

Lemma pending_remove (st : system) before (c : dict PairMetrics) after :
  running st = before ++ c :: after ->
  pending_started st ->
  forall d item, d ∈ before ++ after -> item ∈ d ->
    exists results, results ∈ started st /\ item ∈ results.
Proof.
  intros Hrun Hp d item Hd Hitem. apply (Hp d); [|exact Hitem].
  rewrite Hrun. apply elem_of_app in Hd as [Hd|Hd]; apply elem_of_app;
    [now left|right; now right].
Qed.

Lemma invariant_step db0 st st' :
  invariant db0 st -> step st st' -> invariant db0 st'.
Proof.
  intros (Hrows & Hpend & Hsav) Hstep.
  destruct Hstep as [st t fetch clock results|st before k m rest after db' Hrun Hsave
                    |st before k m rest after e Hrun Hsave|st before after Hrun].
  - repeat split; simpl.
    + intros k row Hk. destruct (Hrows k row Hk) as [H|(r & m & Hr & Hm & ->)];
        [now left|right]. exists r, m. repeat split; auto. now right.
    + intros c item Hc Hitem. apply elem_of_cons in Hc as [->|Hc].
      * exists results. split; [left|exact Hitem].
      * destruct (Hpend c item Hc Hitem) as (r & Hr & Hi).
        exists r. split; [now right|exact Hi].
    + intros r Hr. apply elem_of_cons in Hr as [->|Hr]; [|now apply Hsav].
      apply (analyze_loop_wf sample_std mean_of pearson fetch clock).
      split; constructor.
  - split; [|split; [|exact Hsav]].
    + intros k' row Hk'. simpl in Hk'. simpl.
      destruct (Hpend ((k, m) :: rest) (k, m)) as (r & Hr & Hi);
        [rewrite Hrun; apply elem_of_app; right; left|left|].
      pose proof (Hsav r Hr) as Hf. rewrite Forall_forall in Hf.
      destruct (Hf _ Hi) as [Hp _]. simpl in Hp.
      destruct (save_metrics_lookup m (sys_db st) db' Hsave) as [Hnew Hold].
      destruct (decide (k' = pair m)) as [->|Hne].
      * right. exists r, m. rewrite Hnew in Hk'. injection Hk' as <-.
        rewrite Hp. auto.
      * rewrite Hold in Hk' by exact Hne. auto.
    + intros c item Hc Hitem. simpl in Hc. simpl.
      refine (pending_drop st before ((k, m) :: rest) rest after Hrun _
                Hpend c item Hc Hitem).
      intros i Hi. now right.
  - split; [exact Hrows|split; [|exact Hsav]].
    intros c item Hc Hitem. simpl in Hc. simpl.
    exact (pending_remove st before ((k, m) :: rest) after Hrun Hpend
             c item Hc Hitem).
  - split; [exact Hrows|split; [|exact Hsav]].
    intros c item Hc Hitem. simpl in Hc. simpl.
    exact (pending_remove st before [] after Hrun Hpend c item Hc Hitem).
Qed.

(** C8, as amended.  Cycles are not excluded from one another, but
    whatever the triggers and however their saves interleave, every row
    of the table is at all times the initial row of its symbol or the
    whole row of one record computed by one started cycle for that
    symbol: no row mixes two writes. *)
Theorem interleaved_rows_whole (db0 : table) (st : system) :
  rtc step (initial db0) st -> rows_whole db0 st.
Proof.
  intros Hreach.
  cut (invariant db0 st); [now intros [H _]|].
  revert st Hreach. apply rtc_ind_r.
  - apply invariant_initial.
  - intros y z _ Hstep IH. now apply (invariant_step db0 y z).
Qed.

End Steps.

(** *** The scheduled cycle raced by a manual one *)

Definition later_clock (i : nat) : datetime :=
  mk_datetime 2024 3 10 2 1 (Z.of_nat i) 0.

Definition scheduled_results : dict PairMetrics :=
  analyze_all_pairs naive_std naive_mean naive_pearson btc_only_exchange
    night_clock (trigger_pairs Scheduled).

Definition manual_results : dict PairMetrics :=
  analyze_all_pairs naive_std naive_mean naive_pearson btc_only_exchange
    later_clock (trigger_pairs (Manual (Some ["BTC/USDT:USDT"%string]))).

Definition manual_metrics : PairMetrics :=
  default sample_metrics (dict_get "BTC/USDT:USDT"%string manual_results).

(** Both cycles started, none finished. *)
Definition both_running : system :=
  mk_system ∅ [manual_results; scheduled_results]
    [manual_results; scheduled_results].

(** The manual cycle has saved its row, the scheduled one has not yet. *)
Definition manual_saved_first : system :=
  mk_system (<[pair manual_metrics := row_of manual_metrics]> ∅)
    [[]; scheduled_results] [manual_results; scheduled_results].

Lemma both_running_reachable :
  rtc (step naive_std naive_mean naive_pearson) (initial ∅) both_running.
Proof.
  eapply rtc_l.
  { exact (step_start naive_std naive_mean naive_pearson (initial ∅)
             Scheduled btc_only_exchange night_clock). }
  eapply rtc_l; [|apply rtc_refl].
  exact (step_start naive_std naive_mean naive_pearson
           (mk_system ∅ [scheduled_results] [scheduled_results])
           (Manual (Some ["BTC/USDT:USDT"%string])) btc_only_exchange
           later_clock).
Defined.

Lemma manual_saved_first_reachable :
  rtc (step naive_std naive_mean naive_pearson) (initial ∅)
    manual_saved_first.
Proof.
  eapply rtc_r; [exact both_running_reachable|].
  apply (step_save naive_std naive_mean naive_pearson both_running []
           "BTC/USDT:USDT"%string manual_metrics [] [scheduled_results]).
  - vm_compute. reflexivity.
  - reflexivity.
Defined.

(** C8 fails as stated: after the scheduled trigger and a manual one, two
    cycles are in flight, each with a row of the same symbol still to
    save; the second was neither rejected nor coalesced. *)
Lemma two_cycles_counterexample :
  rtc (step naive_std naive_mean naive_pearson) (initial ∅) both_running
  /\ running both_running = [manual_results; scheduled_results]
  /\ keys manual_results = ["BTC/USDT:USDT"%string]
  /\ keys scheduled_results = ["BTC/USDT:USDT"%string]
  /\ dict_get "BTC/USDT:USDT"%string manual_results
     <> dict_get "BTC/USDT:USDT"%string scheduled_results.
Proof.
  split; [exact both_running_reachable|]. split; [reflexivity|].
  split; [vm_compute; reflexivity|]. split; [vm_compute; reflexivity|].
  vm_compute. discriminate.
Qed.

(** The rows of the table after the manual cycle overtook the scheduled
    one. *)
Lemma interleaved_rows_whole_witness :
  rows_whole ∅ manual_saved_first.
Proof.
  apply (interleaved_rows_whole naive_std naive_mean naive_pearson ∅
           manual_saved_first).
  exact manual_saved_first_reachable.
Defined.

End Concurrent.

(** ** More on the store: what reads return and how saves compose *)

Module StoreFacts.
Import PyDatetime Store.

(** [GET /pairs]: the listing of [get_all_pairs] with its length. *)
Definition get_available_pairs (db : table) : Z * (list string * nat) :=
  let pairs := get_all_pairs db in
  (200, (pairs, length pairs)).

Section HostParameters.
Variable SQLITE_MAX_VARIABLE_NUMBER : positive.

Abbreviation get_metrics := (get_metrics SQLITE_MAX_VARIABLE_NUMBER).

(** X1. [get_metrics] returns exactly the requested pairs that the table
    holds, each under its own key and built from its own row: nothing
    for a pair that was not requested or was never saved. *)
Theorem get_metrics_exactly_requested (pairs : list string) (db : table)
    (res : gmap string PairMetrics) :
  get_metrics pairs db = Ok res ->
  forall k metrics,
    res !! k = Some metrics
    <-> k ∈ pairs
        /\ pair metrics = k
        /\ exists row, db !! k = Some row
                       /\ metrics_of_row k row = Some metrics.
Proof.
  intros Hget k m. rewrite (get_metrics_lookup _ _ _ _ k Hget).
  case_bool_decide as Hk.
  - split.
    + intros Hm. destruct (db !! k) as [row|] eqn:Hrow; [|discriminate].
      simpl in Hm. repeat split; [exact Hk| |eauto].
      unfold metrics_of_row in Hm.
      destruct (fromisoformat _); [|discriminate]. now injection Hm as <-.
    + intros (_ & _ & row & -> & Hm). exact Hm.
  - split; [discriminate|]. intros [Hin _]. contradiction.
Qed.

(** X2. Within the bound on host parameters, the answer of [get_metrics]
    depends on the set of requested pairs only: their order and their
    repetitions do not matter. *)
Theorem get_metrics_order_irrelevant (l1 l2 : list string) (db : table) :
  (forall k, k ∈ l1 <-> k ∈ l2) ->
  Z.of_nat (length l1) <= Z.pos SQLITE_MAX_VARIABLE_NUMBER ->
  Z.of_nat (length l2) <= Z.pos SQLITE_MAX_VARIABLE_NUMBER ->
  get_metrics l1 db = get_metrics l2 db.
Proof.
  intros H Hl1 Hl2. unfold Store.get_metrics.
  rewrite !(proj2 (Z.ltb_ge _ _)) by assumption.
  assert (Hf : filter (fun kv : string * Row => kv.1 ∈ l1) db
               = filter (fun kv : string * Row => kv.1 ∈ l2) db).
  { apply map_filter_ext. intros k row Hk. simpl. apply H. }
  now rewrite Hf.
Qed.

(** X3. What [get_metrics] raises, and when: [OperationalError] exactly
    for a request longer than the bound on host parameters; [ValueError]
    exactly for a request within the bound that names a pair whose row
    has a timestamp text that does not parse (one such row fails the
    whole request); and nothing else. *)
Theorem get_metrics_raises_iff (pairs : list string) (db : table) (e : exn) :
  get_metrics pairs db = Raise e
  <-> (e = OperationalError
       /\ Z.pos SQLITE_MAX_VARIABLE_NUMBER < Z.of_nat (length pairs))
      \/ (e = ValueError
          /\ Z.of_nat (length pairs) <= Z.pos SQLITE_MAX_VARIABLE_NUMBER
          /\ exists k row,
               k ∈ pairs /\ db !! k = Some row
               /\ fromisoformat (col_last_updated row) = None).
Proof.
  unfold Store.get_metrics.
  destruct (Z.ltb_spec (Z.pos SQLITE_MAX_VARIABLE_NUMBER)
              (Z.of_nat (length pairs))) as [Hlong|Hshort].
  - split.
    + intros [= <-]. now left.
    + intros [[-> _]|(_ & Hle & _)]; [reflexivity|lia].
  - case_bool_decide as Hall.
    + split; [discriminate|].
      intros [[_ Hlt]|(_ & _ & k & row & Hk & Hrow & Hnone)]; [lia|].
      exfalso. destruct (Hall k row) as [m Hm].
      { now apply map_lookup_filter_Some. }
      unfold metrics_of_row in Hm. rewrite Hnone in Hm. discriminate.
    + split.
      * intros [= <-]. right. split; [reflexivity|]. split; [exact Hshort|].
        apply map_not_Forall in Hall; [|apply _].
        destruct Hall as (k & row & Hk & Hnone).
        apply map_lookup_filter_Some in Hk as [Hk Hin]. simpl in Hin.
        exists k, row. repeat split; try assumption.
        unfold metrics_of_row in Hnone.
        destruct (fromisoformat (col_last_updated row)); [|reflexivity].
        exfalso. apply Hnone. simpl. eauto.
      * intros [[_ Hlt]|(-> & _)]; [lia|reflexivity].
Qed.

(** X5. A save is invisible to a read of other pairs. *)
Theorem save_metrics_isolated (metrics : PairMetrics) (pairs : list string)
    (db : table) :
  pair metrics ∉ pairs ->
  get_metrics pairs (table_after (save_metrics metrics db) db)
  = get_metrics pairs db.
Proof.
  intros Hnot. unfold save_metrics.
  destruct (fits_int64 _); [|reflexivity]. simpl. unfold Store.get_metrics.
  destruct (_ <? _); [reflexivity|].
  rewrite map_filter_insert_not; [reflexivity|].
  intros row Hin. simpl in Hin. contradiction.
Qed.

End HostParameters.

(** [sample_metrics] saved, then requested with a pair never saved. *)
Lemma get_metrics_exactly_requested_witness :
  let db : table := {[pair sample_metrics := row_of sample_metrics]} in
  let pairs := ["UNKNOWN/USDT"; "BTC/USDT:USDT"]%string in
  get_metrics default_max_variable_number pairs db
  = Ok {[pair sample_metrics := sample_metrics]}
  /\ forall k metrics,
       ({[pair sample_metrics := sample_metrics]} : gmap string PairMetrics)
         !! k = Some metrics
       <-> k ∈ pairs
           /\ pair metrics = k
           /\ exists row, db !! k = Some row
                          /\ metrics_of_row k row = Some metrics.
Proof.
  cbv zeta.
  assert (H : get_metrics default_max_variable_number
                ["UNKNOWN/USDT"; "BTC/USDT:USDT"]%string
                {[pair sample_metrics := row_of sample_metrics]}
              = Ok {[pair sample_metrics := sample_metrics]})
    by (vm_compute; reflexivity).
  split; [exact H|].
  exact (get_metrics_exactly_requested _ _ _ _ H).
Defined.

Lemma get_metrics_order_irrelevant_witness :
  get_metrics default_max_variable_number
    ["UNKNOWN/USDT"; "BTC/USDT:USDT"; "UNKNOWN/USDT"]%string
    {[pair sample_metrics := row_of sample_metrics]}
  = get_metrics default_max_variable_number
      ["BTC/USDT:USDT"; "UNKNOWN/USDT"]%string
      {[pair sample_metrics := row_of sample_metrics]}.
Proof.
  apply get_metrics_order_irrelevant.
  - intros k. rewrite !elem_of_cons, !elem_of_nil. tauto.
  - vm_compute. discriminate.
  - vm_compute. discriminate.
Defined.

Lemma save_metrics_isolated_witness :
  get_metrics default_max_variable_number ["BTC/USDT:USDT"]%string
    (table_after
       (save_metrics nan_metrics
          {[pair sample_metrics := row_of sample_metrics]})
       {[pair sample_metrics := row_of sample_metrics]})
  = get_metrics default_max_variable_number ["BTC/USDT:USDT"]%string
      {[pair sample_metrics := row_of sample_metrics]}.
Proof.
  apply save_metrics_isolated. rewrite list_elem_of_singleton. discriminate.
Defined.

(** X4. Saves compose as writes to a keyed table: saves of different pairs
    commute, and of two saves of one pair the second wins whole. *)
Theorem save_metrics_compose (m1 m2 : PairMetrics) (db : table) :
  let save m d := table_after (save_metrics m d) d in
  (pair m1 <> pair m2 -> save m2 (save m1 db) = save m1 (save m2 db))
  /\ (pair m1 = pair m2 ->
      fits_int64 (recommended_leverage m2) = true ->
      save m2 (save m1 db) = save m2 db).
Proof.
  cbv zeta. unfold save_metrics. split.
  - intros Hne.
    destruct (fits_int64 (recommended_leverage m1)),
             (fits_int64 (recommended_leverage m2)); simpl; try reflexivity.
    apply insert_insert_ne. congruence.
  - intros Heq ->. destruct (fits_int64 (recommended_leverage m1)); simpl;
      [|reflexivity].
    rewrite Heq. apply insert_insert_eq.
Qed.

(** X6. [get_all_pairs], and [GET /pairs] with it, lists every pair of the
    table once: the count is the number of rows, a pair just saved is
    listed, and a save grows the listing by one pair exactly when the pair
    is new. *)
Theorem get_available_pairs_lists_table (db : table) :
  let '(status, (pairs, count)) := get_available_pairs db in
  status = 200
  /\ NoDup pairs
  /\ count = size db
  /\ (forall k, k ∈ pairs <-> is_Some (db !! k))
  /\ forall metrics db',
       save_metrics metrics db = Ok db' ->
       pair metrics ∈ get_all_pairs db'
       /\ length (get_all_pairs db')
          = (if decide (is_Some (db !! pair metrics)) then count
             else S count).
Proof.
  unfold get_available_pairs, get_all_pairs. cbv zeta.
  assert (Hmem : forall (d : table) k, k ∈ (map_to_list d).*1 <-> is_Some (d !! k)).
  { intros d k. rewrite list_elem_of_fmap. split.
    - intros ([k' row] & -> & H%elem_of_map_to_list). simpl. eauto.
    - intros [row H]. exists (k, row). split; [reflexivity|].
      now apply elem_of_map_to_list. }
  split; [reflexivity|]. split; [apply NoDup_fst_map_to_list|].
  split; [now rewrite length_fmap, length_map_to_list|].
  split; [apply Hmem|].
  intros m db' Hsave. apply save_metrics_lookup in Hsave as Hl.
  destruct Hl as [Hnew _]. split; [apply Hmem; eauto|].
  unfold save_metrics in Hsave. destruct (fits_int64 _); [|discriminate].
  injection Hsave as <-.
  rewrite !length_fmap, !length_map_to_list, map_size_insert.
  destruct (decide (is_Some (db !! pair m))) as [[row ->]|Hn]; [reflexivity|].
  destruct (db !! pair m); [exfalso; apply Hn; eauto|reflexivity].
Qed.

End StoreFacts.

(** ** The API-key decorator *)

Module Auth.
Local Open Scope string_scope.

(** Truth value of [request.headers.get(...)] or [request.args.get(...)]:
    [None] and the empty string are false. *)
Definition truthy (v : option string) : bool :=
  match v with
  | Some s => negb (String.eqb s EmptyString)
  | None => false
  end.

(** [a or b] *)
Definition py_or (a b : option string) : option string :=
  if truthy a then a else b.

(** What a decorated handler answers: 401, or what the handler returns. *)
Inductive gated (A : Type) :=
  | Unauthorized
  | Passed (a : A).
Arguments Unauthorized {A}.
Arguments Passed {A} a.

Section Gate.
(** The configuration read from the environment at start-up. *)
Variable API_KEY_REQUIRED : bool.
Variable API_KEY : string.

(** [require_api_key(f)] called with the [X-API-Key] header and the
    [api_key] query parameter of the request; [f] is what the handler
    returns on this request. *)
Definition require_api_key {A} (f : A) (header_key query_key : option string)
    : gated A :=
  if API_KEY_REQUIRED then
    let provided_key := py_or header_key query_key in
    if negb (truthy provided_key)
       || negb (bool_decide (provided_key = Some API_KEY))
    then Unauthorized
    else Passed f
  else Passed f.

Lemma truthy_Some_iff s : truthy (Some s) = true <-> s <> EmptyString.
Proof.
  simpl. rewrite negb_true_iff. split.
  - intros H ->. discriminate.
  - intros H. apply String.eqb_neq. exact H.
Qed.

(** X7. The handler runs exactly when no key is required, or when the
    configured key is not empty and is the header, or is the query
    parameter of a request whose header is absent or empty.  So a header
    that is present and wrong refuses the request whatever the query
    parameter. *)
Theorem require_api_key_passes_iff {A} (f : A)
    (header_key query_key : option string) :
  require_api_key f header_key query_key = Passed f
  <-> API_KEY_REQUIRED = false
      \/ (API_KEY <> EmptyString
          /\ (header_key = Some API_KEY
              \/ (truthy header_key = false /\ query_key = Some API_KEY))).
Proof.
  unfold require_api_key, py_or. destruct API_KEY_REQUIRED.
  - split.
    + intros H. right.
      destruct (truthy header_key) eqn:Eh.
      * rewrite Eh in H. simpl in H. case_bool_decide as Hk; [|discriminate].
        subst header_key. split; [now apply truthy_Some_iff|now left].
      * destruct (truthy query_key) eqn:Eq; [|discriminate].
        simpl in H. case_bool_decide as Hk; [|discriminate].
        subst query_key. split; [now apply truthy_Some_iff|right; auto].
    + intros [H|(Hne & Hkey)]; [discriminate|].
      pose proof (proj2 (truthy_Some_iff API_KEY) Hne) as Ht.
      destruct Hkey as [->|[Hh ->]].
      * rewrite Ht. cbn [negb orb]. rewrite Ht.
        now rewrite bool_decide_eq_true_2.
      * rewrite Hh, Ht. cbn [negb orb].
        now rewrite bool_decide_eq_true_2.
  - split; [now left|reflexivity].
Qed.

(** X8. With a key required and none configured ([API_KEY] keeps its default,
    the empty string), every request is refused, with or without a key. *)
Theorem require_api_key_locked {A} (f : A)
    (header_key query_key : option string) :
  API_KEY_REQUIRED = true -> API_KEY = EmptyString ->
  require_api_key f header_key query_key = Unauthorized.
Proof.
  unfold require_api_key, py_or. intros -> ->.
  destruct (truthy header_key) eqn:Eh.
  - rewrite Eh. simpl. case_bool_decide as Hk; [|reflexivity].
    subst header_key. discriminate.
  - destruct (truthy query_key) eqn:Eq; [|reflexivity]. simpl.
    case_bool_decide as Hk; [|reflexivity]. subst query_key. discriminate.
Qed.

End Gate.

Lemma require_api_key_locked_witness :
  require_api_key true EmptyString 200%Z (Some EmptyString) (Some "guess")
  = Unauthorized.
Proof. apply require_api_key_locked; reflexivity. Defined.

Example require_api_key_examples :
  require_api_key true "s3cret" 200%Z (Some "s3cret") None = Passed 200%Z
  /\ require_api_key true "s3cret" 200%Z None (Some "s3cret") = Passed 200%Z
  /\ require_api_key true "s3cret" 200%Z (Some "") (Some "s3cret")
     = Passed 200%Z
  /\ require_api_key true "s3cret" 200%Z (Some "wrong") (Some "s3cret")
     = Unauthorized
  /\ require_api_key true "s3cret" 200%Z None None = Unauthorized
  /\ require_api_key false "s3cret" 200%Z None None = Passed 200%Z.
Proof. repeat split. Qed.

End Auth.

(** ** NaN and the infinities through the leverage formulas *)

Module FloatEdge.
Import PyFloat.
Local Open Scope float_scope.

Lemma is_nan_eq (x : float) : is_nan x = true -> x = nan.
Proof.
  intros H. apply Prim2SF_inj. change (Prim2SF nan) with S754_nan.
  destruct (Prim2SF x) eqn:E; try reflexivity;
    exfalso; assert (Hn : not_nan x) by (unfold not_nan; congruence);
    apply not_nan_is_nan in Hn; congruence.
Qed.

Lemma div_nan_l (y : float) : nan / y = nan.
Proof. apply Prim2SF_inj. now rewrite div_spec. Qed.

Lemma add_nan_l (y : float) : nan + y = nan.
Proof. apply Prim2SF_inj. now rewrite add_spec. Qed.

Lemma add_nan_r (x : float) : x + nan = nan.
Proof.
  apply Prim2SF_inj. rewrite add_spec. change (Prim2SF nan) with S754_nan.
  now destruct (Prim2SF x).
Qed.

Lemma leb_not_nan_r (c x : float) : (c <=? x) = true -> is_nan x = false.
Proof.
  rewrite leb_spec. intros H. apply not_nan_is_nan. unfold not_nan.
  intros E. rewrite E in H. unfold SFleb, SFcompare in H.
  now destruct (Prim2SF c).
Qed.

Lemma leb_tenth_not_zero (x : float) : (0.1 <=? x) = true -> is_zero x = false.
Proof.
  unfold is_zero. rewrite leb_spec, FloatAxioms.eqb_spec.
  change (Prim2SF 0.1) with (S754_finite false 7205759403792794 (-56)).
  change (Prim2SF PrimFloat.zero) with (S754_zero false).
  destruct (Prim2SF x) as [[]|[]| |[] m e]; now cbn.
Qed.

(** The clamp of [1/riskRatio] when [riskRatio] is NaN. *)
Lemma adjustment_of_nan_risk (risk_ratio : float) :
  risk_ratio = nan ->
  max2 0.1 (min2 2.0 (if 0 <? risk_ratio then 1.0 / risk_ratio else 1.0)) = 1.
Proof. now intros ->. Qed.

Lemma leverage_adjustment_in_range (pv ev pm em : float) :
  (0.1 <=? calculate_leverage_adjustment pv ev pm em) = true
  /\ (calculate_leverage_adjustment pv ev pm em <=? 2.0) = true.
Proof.
  unfold calculate_leverage_adjustment. cbv zeta.
  set (risk_ratio := (_ + _) / 2).
  assert (Hn : not_nan (if 0 <? risk_ratio then 1.0 / risk_ratio else 1.0)).
  { destruct (0 <? risk_ratio) eqn:E;
      [now apply one_div_pos_not_nan|apply not_nan_one]. }
  destruct (max2_min2_clamp _ Hn) as (H1 & H2 & _). now split.
Qed.

Lemma leverage_adjustment_nan_volatility (pv ev pm em : float) :
  is_nan pv = true -> (0 <? ev) = true ->
  calculate_leverage_adjustment pv ev pm em = 1.
Proof.
  intros ->%is_nan_eq Hev. unfold calculate_leverage_adjustment. cbv zeta.
  rewrite Hev, div_nan_l, add_nan_l, div_nan_l. reflexivity.
Qed.

(** X9. The adjustment is the neutral [1.0] whenever it cannot be computed
    from data: a NaN pair volatility or movement over a positive
    benchmark value, or a benchmark with neither a positive volatility nor
    a positive movement (zero, negative or NaN). *)
Theorem calculate_leverage_adjustment_neutral
    (pair_volatility eth_volatility pair_avg_movement eth_avg_movement : float) :
  (is_nan pair_volatility = true /\ (0 <? eth_volatility) = true)
  \/ (is_nan pair_avg_movement = true /\ (0 <? eth_avg_movement) = true)
  \/ ((0 <? eth_volatility) = false /\ (0 <? eth_avg_movement) = false) ->
  calculate_leverage_adjustment pair_volatility eth_volatility
    pair_avg_movement eth_avg_movement = 1.
Proof.
  intros [[Hp Hev]|[[Hp Hem]|[Hev Hem]]].
  - now apply leverage_adjustment_nan_volatility.
  - apply is_nan_eq in Hp as ->. unfold calculate_leverage_adjustment.
    cbv zeta. rewrite Hem, div_nan_l, add_nan_r, div_nan_l. reflexivity.
  - unfold calculate_leverage_adjustment. now rewrite Hev, Hem.
Qed.

Lemma calculate_leverage_adjustment_neutral_witness :
  calculate_leverage_adjustment nan 0.8 0.04 0.05 = 1
  /\ calculate_leverage_adjustment 2.4 0 0.04 nan = 1.
Proof.
  split; apply calculate_leverage_adjustment_neutral.
  - left. split; reflexivity.
  - right. right. split; reflexivity.
Defined.

(** X10. An adjustment that is NaN or infinite gives the lowest leverage, [1],
    whatever the volatility ratio: every ladder value is then at the same
    distance (NaN or infinite) and the first one stays. *)
Theorem recommend_leverage_not_finite (leverage_adjustment volatility_ratio : float) :
  is_nan leverage_adjustment = true
  \/ leverage_adjustment = infinity
  \/ leverage_adjustment = neg_infinity ->
  recommend_leverage leverage_adjustment volatility_ratio = 1%Z.
Proof.
  intros [->%is_nan_eq|[->| ->]]; unfold recommend_leverage; cbv zeta;
    destruct (1.5 <? volatility_ratio), (1.2 <? volatility_ratio);
    reflexivity.
Qed.

Lemma recommend_leverage_not_finite_witness :
  recommend_leverage infinity 3 = 1%Z /\ recommend_leverage nan 1 = 1%Z.
Proof.
  split; apply recommend_leverage_not_finite.
  - right. left. reflexivity.
  - left. reflexivity.
Defined.

End FloatEdge.

(** ** More on the analyzer: returns, short histories, results *)

Module AnalyzerFacts.
Import PyDatetime Store Pandas PyDict Analyzer Refresh FloatEdge.
Local Open Scope float_scope.

Lemma pct_change_from_labels_eq previous (s : Series) :
  (pct_change_from previous s).*1 = s.*1.
Proof.
  revert previous. induction s as [|[l x] s IH]; intros previous;
    [reflexivity|].
  simpl. f_equal. apply IH.
Qed.

Lemma calculate_daily_returns_cons b df :
  calculate_daily_returns (b :: df)
  = dropna (pct_change_from (bar_close b) (column bar_close df)).
Proof.
  unfold calculate_daily_returns, dropna, column, Series.
  cbn [map pct_change].
  rewrite filter_cons_False; [reflexivity|]. unfold notna. discriminate.
Qed.

Lemma length_calculate_daily_returns df :
  (length (calculate_daily_returns df) <= length df - 1)%nat.
Proof.
  destruct df as [|b df]; [simpl; lia|].
  rewrite calculate_daily_returns_cons. unfold dropna.
  etransitivity; [apply sublist_length, sublist_filter|].
  rewrite <- (length_fmap fst), pct_change_from_labels_eq.
  unfold column. rewrite length_fmap, length_map. simpl. lia.
Qed.

(** X11. The daily returns hold no NaN, and they are labelled by timestamps of
    the bars after the first, in their order: so there are at most
    [len(df) - 1] of them, and none for a frame of one bar. *)
Theorem calculate_daily_returns_shape (df : DataFrame) :
  Forall (fun p => notna p.2) (calculate_daily_returns df)
  /\ (calculate_daily_returns df).*1
     `sublist_of` map (fun b => Timestamp (bar_timestamp b)) (tail df)
  /\ (length (calculate_daily_returns df) <= length df - 1)%nat.
Proof.
  split; [|split; [|apply length_calculate_daily_returns]].
  - unfold calculate_daily_returns, dropna. apply Forall_forall.
    intros p Hp. now apply list_elem_of_filter in Hp as [Hp _].
  - destruct df as [|b df]; [reflexivity|].
    rewrite calculate_daily_returns_cons. unfold dropna. cbn [tail].
    etransitivity; [apply fmap_sublist, sublist_filter|].
    rewrite pct_change_from_labels_eq. unfold column.
    induction df as [|b' df IH]; [reflexivity|]. simpl. now constructor.
Qed.

Lemma length_aligned_intersection (a b : Series) :
  (length (aligned_intersection a b) <= length a)%nat.
Proof.
  unfold aligned_intersection. induction a as [|p a IH]; [reflexivity|].
  cbn [omap list_omap]. destruct (_ ≫= _); simpl; lia.
Qed.

Section WithExchange.
Variable sample_std : list float -> float.
Variable mean_of : list float -> float.
Variable pearson : list (float * float) -> float.
Variable fetch_ohlcv : string -> option DataFrame.

Abbreviation analyze_pair :=
  (analyze_pair sample_std mean_of pearson fetch_ohlcv).
Abbreviation analyze_loop :=
  (analyze_loop sample_std mean_of pearson fetch_ohlcv).
Abbreviation analyze_all_pairs :=
  (analyze_all_pairs sample_std mean_of pearson fetch_ohlcv).
Abbreviation get_ohlcv_data := (get_ohlcv_data fetch_ohlcv).

(** X12. With ten bars or fewer for the pair there are fewer than ten returns
    to align, so the correlation is [0.0] whatever the other series. *)
Theorem calculate_correlation_short_history (df : DataFrame)
    (other : Series) :
  (length df <= 10)%nat ->
  calculate_correlation pearson (calculate_daily_returns df) other = 0.
Proof.
  intros Hlen. unfold calculate_correlation.
  rewrite <- (length_fmap snd), dropna_concat_axis1.
  pose proof (length_aligned_intersection (calculate_daily_returns df) other).
  pose proof (length_calculate_daily_returns df).
  rewrite (proj2 (Nat.ltb_lt _ _)) by lia. reflexivity.
Qed.

Lemma calculate_volatility_few (returns : Series) :
  (length returns <= 1)%nat -> calculate_volatility sample_std returns = nan.
Proof.
  intros H. unfold calculate_volatility, series_std. cbv zeta.
  rewrite length_fmap.
  assert (Hd : (length (dropna returns) <= length returns)%nat)
    by apply sublist_length, sublist_filter.
  rewrite (proj2 (Nat.ltb_lt _ _)) by lia. reflexivity.
Qed.

(** X13. What [analyze_pair] returns satisfies the data model: the record is
    that of the requested pair, stamped with the time read, with an
    adjustment in [[0.1, 2.0]], a leverage of the ladder up to 25 and all
    four float attributes set; and it is returned only for a frame that
    is not empty. *)
Theorem analyze_pair_invariants (p : string) (eth_data : EthData)
    (now : datetime) (metrics : PairMetrics) :
  analyze_pair p eth_data now = Some metrics ->
  pair metrics = p
  /\ last_updated metrics = now
  /\ (exists la, leverage_adjustment metrics = Some la
                 /\ (0.1 <=? la) = true /\ (la <=? 2.0) = true)
  /\ In (recommended_leverage metrics) [1; 2; 3; 5; 10; 20; 25]%Z
  /\ is_Some (volatility_ratio metrics)
  /\ is_Some (correlation_with_eth metrics)
  /\ is_Some (avg_daily_movement metrics)
  /\ get_ohlcv_data p <> [].
Proof.
  unfold Analyzer.analyze_pair.
  destruct (Analyzer.get_ohlcv_data fetch_ohlcv p) as [|b df] eqn:E;
    [discriminate|].
  cbn [df_empty]. intros [= <-].
  cbn [pair last_updated leverage_adjustment recommended_leverage
       volatility_ratio correlation_with_eth avg_daily_movement].
  split; [reflexivity|]. split; [reflexivity|]. split.
  { eexists. split; [reflexivity|]. apply leverage_adjustment_in_range. }
  split; [apply recommend_leverage_range|].
  repeat split; eauto; discriminate.
Qed.

Lemma short_history_record (p : string) (eth_data : EthData)
    (now : datetime) :
  get_ohlcv_data p <> [] ->
  (length (get_ohlcv_data p) <= 2)%nat ->
  (0 <? volatility eth_data) = true ->
  exists metrics,
    analyze_pair p eth_data now = Some metrics
    /\ volatility_ratio metrics = Some nan.
Proof.
  intros Hne Hlen Heth. unfold Analyzer.analyze_pair.
  destruct (Analyzer.get_ohlcv_data fetch_ohlcv p) as [|b df] eqn:E;
    [congruence|].
  cbn [df_empty]. eexists. split; [reflexivity|].
  cbn [volatility_ratio].
  rewrite calculate_volatility_few, Heth, div_nan_l; [reflexivity|].
  pose proof (length_calculate_daily_returns (b :: df)). simpl in *. lia.
Qed.

(** X14. A history of one or two bars gives at most one return, hence a NaN
    volatility: against a benchmark of positive volatility the record
    carries a NaN volatility ratio, the neutral adjustment [1.0] and the
    leverage [10]. *)
Theorem analyze_pair_short_history (p : string) (eth_data : EthData)
    (now : datetime) :
  get_ohlcv_data p <> [] ->
  (length (get_ohlcv_data p) <= 2)%nat ->
  (0 <? volatility eth_data) = true ->
  exists metrics,
    analyze_pair p eth_data now = Some metrics
    /\ volatility_ratio metrics = Some nan
    /\ leverage_adjustment metrics = Some 1
    /\ recommended_leverage metrics = 10%Z.
Proof.
  intros Hne Hlen Heth. unfold Analyzer.analyze_pair.
  destruct (Analyzer.get_ohlcv_data fetch_ohlcv p) as [|b df] eqn:E;
    [congruence|].
  cbn [df_empty]. eexists. split; [reflexivity|].
  cbn [volatility_ratio leverage_adjustment recommended_leverage].
  assert (Hvol : calculate_volatility sample_std
                   (calculate_daily_returns (b :: df)) = nan).
  { apply calculate_volatility_few.
    pose proof (length_calculate_daily_returns (b :: df)). lia. }
  rewrite Hvol, Heth, div_nan_l.
  rewrite leverage_adjustment_nan_volatility by (reflexivity || exact Heth).
  repeat split.
Qed.

Lemma analyze_loop_keys eth clock (pairs : list string) :
  forall i results,
    keys (analyze_loop eth clock i pairs results)
    = keys results
      ++ first_occurrences (keys results)
           (filter (fun k => get_ohlcv_data k <> []) pairs).
Proof.
  induction pairs as [|p pairs IH]; intros i results.
  - simpl. now rewrite app_nil_r.
  - cbn [Analyzer.analyze_loop].
    destruct (decide (get_ohlcv_data p <> [])) as [Hd|Hd].
    + rewrite filter_cons_True by exact Hd.
      destruct (Refresh.analyze_pair_available sample_std mean_of pearson
                  fetch_ohlcv p eth (clock i) Hd) as [m ->].
      rewrite IH. cbn [first_occurrences].
      destruct (decide (p ∈ keys results)) as [Hk|Hk].
      * now rewrite keys_set_present.
      * rewrite keys_set_absent by exact Hk. now rewrite <- app_assoc.
    + rewrite filter_cons_False by exact Hd.
      rewrite Refresh.analyze_pair_unavailable; [apply IH|].
      destruct (get_ohlcv_data p); [reflexivity|].
      exfalso. apply Hd. discriminate.
Qed.

(** X15. The results of [analyze_all_pairs] hold exactly the requested pairs
    whose frame is not empty, each once, in the order of their first
    request; every record is keyed by its own pair. *)
Theorem analyze_all_pairs_keys (clock : nat -> datetime)
    (pairs : list string) :
  keys (analyze_all_pairs clock pairs)
  = first_occurrences [] (filter (fun k => get_ohlcv_data k <> []) pairs)
  /\ Forall (fun item => pair item.2 = item.1)
       (analyze_all_pairs clock pairs).
Proof.
  split.
  - unfold Analyzer.analyze_all_pairs. now rewrite analyze_loop_keys.
  - destruct (Refresh.analyze_loop_wf sample_std mean_of pearson fetch_ohlcv
                clock (eth_reference sample_std mean_of fetch_ohlcv) pairs
                0%nat []) as [_ Hf]; [split; constructor|].
    eapply Forall_impl; [exact Hf|]. now intros item [H _].
Qed.

End WithExchange.

(** A pair listed two days ago, against a benchmark of positive
    volatility. *)
Definition new_listing_exchange (symbol : string) : option DataFrame :=
  if decide (symbol = "NEW/USDT:USDT"%string) then Some (take 2 btc_bars)
  else if decide (symbol = "ETH/USDT:USDT"%string) then Some btc_bars
  else None.

Lemma calculate_correlation_short_history_witness :
  calculate_correlation naive_pearson (calculate_daily_returns btc_bars)
    (calculate_daily_returns btc_bars) = 0.
Proof.
  apply calculate_correlation_short_history. vm_compute. lia.
Defined.

Lemma analyze_pair_invariants_witness :
  exists metrics,
    Analyzer.analyze_pair naive_std naive_mean naive_pearson
      btc_only_exchange "BTC/USDT:USDT"
      (eth_reference naive_std naive_mean btc_only_exchange)
      (night_clock 0) = Some metrics
    /\ pair metrics = "BTC/USDT:USDT"%string
    /\ last_updated metrics = night_clock 0
    /\ (exists la, leverage_adjustment metrics = Some la
                   /\ (0.1 <=? la) = true /\ (la <=? 2.0) = true)
    /\ In (recommended_leverage metrics) [1; 2; 3; 5; 10; 20; 25]%Z
    /\ is_Some (volatility_ratio metrics)
    /\ is_Some (correlation_with_eth metrics)
    /\ is_Some (avg_daily_movement metrics)
    /\ Analyzer.get_ohlcv_data btc_only_exchange "BTC/USDT:USDT" <> [].
Proof.
  eexists. split; [reflexivity|].
  apply (analyze_pair_invariants naive_std naive_mean naive_pearson
           btc_only_exchange "BTC/USDT:USDT"
           (eth_reference naive_std naive_mean btc_only_exchange)
           (night_clock 0)).
  reflexivity.
Defined.

Lemma analyze_pair_short_history_witness :
  exists metrics,
    Analyzer.analyze_pair naive_std naive_mean naive_pearson
      new_listing_exchange "NEW/USDT:USDT"
      (eth_reference naive_std naive_mean new_listing_exchange)
      (night_clock 0) = Some metrics
    /\ volatility_ratio metrics = Some nan
    /\ leverage_adjustment metrics = Some 1
    /\ recommended_leverage metrics = 10%Z.
Proof.
  apply analyze_pair_short_history.
  - discriminate.
  - vm_compute. lia.
  - vm_compute. reflexivity.
Defined.

End AnalyzerFacts.

(** ** More on the refresh cycle: what it touches and what it keeps *)

Module RefreshFacts.
Import PyDatetime Store Pandas PyDict Analyzer Refresh FloatEdge.
Local Open Scope float_scope.

(** The ranges of the data model on a stored row: an adjustment in
    [[0.1, 2.0]] and a leverage of the ladder up to 25. *)
Definition row_in_range (row : Row) : Prop :=
  (exists la, col_leverage_adjustment row = Some la
              /\ (0.1 <=? la) = true /\ (la <=? 2.0) = true)
  /\ In (col_recommended_leverage row) [1; 2; 3; 5; 10; 20; 25]%Z.

Lemma dict_get_elem_of {V} k (v : V) (d : dict V) :
  dict_get k d = Some v -> (k, v) ∈ d.
Proof.
  induction d as [|[k' v'] d IH]; [discriminate|]. simpl.
  destruct (decide (k' = k)) as [->|Hne].
  - intros [= ->]. left.
  - intros H. right. now apply IH.
Qed.

Lemma Forall_dict_set {V} (Q : string * V -> Prop) k v (d : dict V) :
  Q (k, v) -> Forall Q d -> Forall Q (dict_set k v d).
Proof.
  intros Hq. induction 1 as [|[k' v'] d Hk Hd IH]; simpl.
  - constructor; [exact Hq|constructor].
  - destruct (decide (k' = k)); constructor; auto.
Qed.

Lemma bind_real_in_range (la : float) :
  (0.1 <=? la) = true -> bind_real (Some la) = Some la.
Proof.
  intros H. unfold bind_real.
  now rewrite (leb_not_nan_r _ _ H), (leb_tenth_not_zero _ H).
Qed.

Section WithExchange.
Variable sample_std : list float -> float.
Variable mean_of : list float -> float.
Variable pearson : list (float * float) -> float.
Variable fetch_ohlcv : string -> option DataFrame.
Variable clock : nat -> datetime.

Abbreviation analyze_pair :=
  (analyze_pair sample_std mean_of pearson fetch_ohlcv).
Abbreviation analyze_loop :=
  (analyze_loop sample_std mean_of pearson fetch_ohlcv).
Abbreviation analyze_all_pairs :=
  (analyze_all_pairs sample_std mean_of pearson fetch_ohlcv).
Abbreviation get_ohlcv_data := (get_ohlcv_data fetch_ohlcv).
Abbreviation update_metrics :=
  (update_metrics sample_std mean_of pearson fetch_ohlcv clock).
Abbreviation scheduled_update :=
  (scheduled_update sample_std mean_of pearson fetch_ohlcv clock).

Lemma analyze_loop_Forall (Q : string * PairMetrics -> Prop) eth pairs :
  (forall p now metrics, analyze_pair p eth now = Some metrics ->
                         Q (p, metrics)) ->
  forall i results,
    Forall Q results -> Forall Q (analyze_loop eth clock i pairs results).
Proof.
  intros HQ. induction pairs as [|p pairs IH]; intros i results Hr;
    [exact Hr|].
  cbn [Analyzer.analyze_loop]. apply IH.
  destruct (analyze_pair p eth (clock i)) as [m|] eqn:E; [|exact Hr].
  apply Forall_dict_set; [|exact Hr]. now apply (HQ p (clock i)).
Qed.

Lemma analyze_pair_row_in_range p eth now metrics :
  analyze_pair p eth now = Some metrics -> row_in_range (row_of metrics).
Proof.
  unfold Analyzer.analyze_pair. destruct (df_empty _); [discriminate|].
  intros [= <-]. unfold row_in_range, row_of.
  cbn [col_leverage_adjustment col_recommended_leverage leverage_adjustment
       recommended_leverage].
  split; [|apply recommend_leverage_range].
  eexists. split; [|apply leverage_adjustment_in_range].
  apply bind_real_in_range, leverage_adjustment_in_range.
Qed.

Lemma results_untouched (pairs : list string) k :
  k ∉ pairs \/ get_ohlcv_data k = [] ->
  dict_get k (analyze_all_pairs clock pairs) = None.
Proof.
  intros H. unfold Analyzer.analyze_all_pairs.
  rewrite (analyze_loop_get_untouched sample_std mean_of pearson fetch_ohlcv
             clock); [reflexivity|].
  intros Hin. destruct H as [H|H]; [contradiction|exact H].
Qed.

(** X16. A cycle never fails on the store and is confined to its request: it
    leaves untouched the row of every pair that is not requested or has
    no data, it deletes no row, and a row it adds is that of a requested
    pair with data. *)
Theorem update_metrics_frame (pairs : list string) (db : table) :
  exists db',
    update_metrics (Some pairs) db = (db', None)
    /\ (forall k, k ∉ pairs \/ get_ohlcv_data k = [] -> db' !! k = db !! k)
    /\ (forall k, is_Some (db !! k) -> is_Some (db' !! k))
    /\ (forall k, is_Some (db' !! k) ->
          is_Some (db !! k) \/ (k ∈ pairs /\ get_ohlcv_data k <> [])).
Proof.
  destruct (update_metrics_lookup sample_std mean_of pearson fetch_ohlcv clock
              pairs db) as (db' & Hu & Hl).
  exists db'. split; [exact Hu|]. split; [|split].
  - intros k Hk. rewrite Hl. now rewrite results_untouched.
  - intros k Hk. rewrite Hl. destruct (dict_get k _); [eauto|exact Hk].
  - intros k Hk. rewrite Hl in Hk.
    destruct (decide (k ∈ pairs)) as [Hin|Hin].
    + destruct (get_ohlcv_data k) as [|b df] eqn:E.
      * rewrite results_untouched in Hk by (now right). now left.
      * right. split; [exact Hin|discriminate].
    + rewrite results_untouched in Hk by (now left). now left.
Qed.

(** X17. While the exchange serves no requested pair, a cycle changes nothing
    in the table and raises nothing: the rows in place stay, however
    old. *)
Theorem update_metrics_outage (pairs : list string) (db : table) :
  (forall k, k ∈ pairs -> get_ohlcv_data k = []) ->
  update_metrics (Some pairs) db = (db, None).
Proof.
  intros Hdown.
  destruct (update_metrics_lookup sample_std mean_of pearson fetch_ohlcv clock
              pairs db) as (db' & Hu & Hl).
  rewrite Hu. f_equal. apply map_eq. intros k. rewrite Hl.
  rewrite results_untouched; [reflexivity|].
  destruct (decide (k ∈ pairs)); [right; auto|now left].
Qed.

(** X18. A cycle keeps the ranges of the data model: if every row of the table
    has its adjustment in [[0.1, 2.0]] and its leverage in the ladder up
    to 25, so has every row after the cycle. *)
Theorem update_metrics_keeps_ranges (pairs : list string) (db : table) :
  map_Forall (fun _ row => row_in_range row) db ->
  map_Forall (fun _ row => row_in_range row)
    (update_metrics (Some pairs) db).1.
Proof.
  intros Hdb.
  destruct (update_metrics_lookup sample_std mean_of pearson fetch_ohlcv clock
              pairs db) as (db' & Hu & Hl).
  rewrite Hu. cbn [fst]. intros k row Hrow. rewrite Hl in Hrow.
  destruct (dict_get k (analyze_all_pairs clock pairs)) as [m|] eqn:E;
    [|now apply (Hdb k)].
  injection Hrow as <-. apply dict_get_elem_of in E.
  assert (Hall : Forall (fun item : string * PairMetrics =>
                           row_in_range (row_of item.2))
                   (analyze_all_pairs clock pairs)).
  { apply analyze_loop_Forall; [|constructor].
    intros p now metrics. apply analyze_pair_row_in_range. }
  rewrite Forall_forall in Hall. exact (Hall _ E).
Qed.

(** X19. The scheduled cycle is confined to the default pairs: it leaves every
    other row untouched and deletes none. *)
Theorem scheduled_update_frame (db : table) :
  (forall k, k ∉ DEFAULT_PAIRS -> scheduled_update db !! k = db !! k)
  /\ (forall k, is_Some (db !! k) -> is_Some (scheduled_update db !! k)).
Proof.
  unfold Refresh.scheduled_update.
  destruct (update_metrics_lookup sample_std mean_of pearson fetch_ohlcv clock
              DEFAULT_PAIRS db) as (db' & Hu & Hl).
  change (Refresh.update_metrics sample_std mean_of pearson fetch_ohlcv clock
            None db)
    with (update_metrics (Some DEFAULT_PAIRS) db).
  rewrite Hu. cbn [fst]. split.
  - intros k Hk. rewrite Hl. rewrite results_untouched; [reflexivity|now left].
  - intros k Hk. rewrite Hl. destruct (dict_get k _); [eauto|exact Hk].
Qed.

End WithExchange.

Definition dead_exchange (symbol : string) : option DataFrame := None.

Lemma update_metrics_outage_witness :
  Refresh.update_metrics naive_std naive_mean naive_pearson dead_exchange
    night_clock (Some DEFAULT_PAIRS)
    {[pair sample_metrics := row_of sample_metrics]}
  = ({[pair sample_metrics := row_of sample_metrics]}, None).
Proof. apply update_metrics_outage. reflexivity. Defined.

Lemma update_metrics_keeps_ranges_witness :
  map_Forall (fun _ row => row_in_range row)
    (Refresh.update_metrics naive_std naive_mean naive_pearson
       btc_only_exchange night_clock (Some DEFAULT_PAIRS)
       {[pair nan_metrics := row_of sample_metrics]}).1.
Proof.
  apply update_metrics_keeps_ranges. apply map_Forall_singleton. split.
  - exists 0.5. repeat split.
  - right. right. left. reflexivity.
Defined.

End RefreshFacts.

(** ** More on the lookup: when it answers and when it fails *)

Module QueryFacts.
Import PyDatetime Store Pandas PyDict Analyzer Refresh Query.

Lemma found_entry_Raise (m : PairMetrics) e :
  found_entry m = Raise e -> e = TypeError.
Proof.
  unfold found_entry, round4.
  destruct (leverage_adjustment m), (volatility_ratio m),
    (correlation_with_eth m), (avg_daily_movement m); simpl; congruence.
Qed.

Lemma found_entry_unservable k row (m : PairMetrics) :
  metrics_of_row k row = Some m -> servable row = false ->
  found_entry m = Raise TypeError.
Proof.
  unfold metrics_of_row, servable.
  destruct (fromisoformat (col_last_updated row)) as [dt|]; [|discriminate].
  simpl. intros [= <-]. unfold found_entry, round4. simpl.
  destruct (col_leverage_adjustment row), (col_volatility_ratio row),
    (col_correlation_with_eth row), (col_avg_daily_movement row);
    simpl; first [reflexivity | discriminate].
Qed.

Lemma build_response_Raise (metrics : gmap string PairMetrics)
    (pairs : list string) k m :
  k ∈ pairs -> metrics !! k = Some m -> found_entry m = Raise TypeError ->
  forall response, build_response metrics pairs response = Raise TypeError.
Proof.
  intros Hin Hm Hraise. induction pairs as [|p pairs IH]; intros response.
  - inversion Hin.
  - cbn [build_response].
    destruct (decide (p = k)) as [->|Hne].
    + now rewrite Hm, Hraise.
    + apply elem_of_cons in Hin as [->|Hin]; [congruence|].
      destruct (metrics !! p) as [m'|].
      * destruct (found_entry m') as [e|e] eqn:E; cbn [result_bind];
          [now apply IH|].
        now apply found_entry_Raise in E as ->.
      * cbn [result_bind]. now apply IH.
Qed.

Section HostParameters.
Variable SQLITE_MAX_VARIABLE_NUMBER : positive.

Abbreviation get_metrics := (get_metrics SQLITE_MAX_VARIABLE_NUMBER).
Abbreviation get_leverage_adjustment :=
  (get_leverage_adjustment SQLITE_MAX_VARIABLE_NUMBER).

Lemma lookup_unservable (pairs : list string) (db : table) k row :
  k ∈ pairs -> db !! k = Some row -> servable row = false ->
  (get_leverage_adjustment pairs db).1 = 500.
Proof.
  intros Hin Hrow Hs. unfold Query.get_leverage_adjustment.
  destruct pairs as [|p pairs']; [inversion Hin|].
  destruct (get_metrics (p :: pairs') db) as [metrics|e] eqn:Hget;
    cbn [result_bind]; [|reflexivity].
  pose proof (get_metrics_lookup _ _ _ _ k Hget) as Hl.
  rewrite bool_decide_eq_true_2, Hrow in Hl by exact Hin. simpl in Hl.
  destruct (metrics_of_row k row) as [m|] eqn:Hm.
  - rewrite (build_response_Raise metrics (p :: pairs') k m Hin Hl
               (found_entry_unservable k row m Hm Hs)).
    reflexivity.
  - exfalso. unfold Store.get_metrics in Hget.
    destruct (_ <? _); [discriminate|].
    case_bool_decide as Hall; [|discriminate].
    destruct (Hall k row) as [m' Hm'];
      [now apply map_lookup_filter_Some|congruence].
Qed.

Lemma lookup_too_long (pairs : list string) (db : table) :
  Z.pos SQLITE_MAX_VARIABLE_NUMBER < Z.of_nat (length pairs) ->
  (get_leverage_adjustment pairs db).1 = 500.
Proof.
  intros Hlong. unfold Query.get_leverage_adjustment, Store.get_metrics.
  destruct pairs as [|p pairs']; [simpl in Hlong; lia|].
  rewrite (proj2 (Z.ltb_lt _ _)) by exact Hlong. reflexivity.
Qed.

Lemma all_servable_false (pairs : list string) (db : table) :
  all_servable pairs db = false ->
  exists k row, k ∈ pairs /\ db !! k = Some row /\ servable row = false.
Proof.
  unfold all_servable. induction pairs as [|p pairs IH]; [discriminate|].
  simpl. rewrite andb_false_iff. intros [H|H].
  - destruct (db !! p) as [row|] eqn:E; [|discriminate].
    exists p, row. repeat split; [left|assumption..].
  - destruct (IH H) as (k & row & Hk & Hrow & Hs).
    exists k, row. repeat split; [now right|assumption..].
Qed.

(** X20. The status of the lookup: 400 exactly for an empty request; for
    a request that is not empty, 200 exactly when it is within the bound
    on host parameters and every requested row of the table can be
    served, and 500 otherwise: a request too long, or one row with a NULL
    float column or an unreadable timestamp, fails the whole request, the
    other symbols with it. *)
Theorem lookup_status (pairs : list string) (db : table) :
  let status := (get_leverage_adjustment pairs db).1 in
  let within := Z.of_nat (length pairs) <= Z.pos SQLITE_MAX_VARIABLE_NUMBER in
  (status = 400 <-> pairs = [])
  /\ (pairs <> [] ->
      (status = 200 <-> within /\ all_servable pairs db = true))
  /\ (pairs <> [] ->
      (status = 500 <-> ~ within \/ all_servable pairs db = false)).
Proof.
  cbv zeta.
  assert (Hok : pairs <> [] ->
                Z.of_nat (length pairs) <= Z.pos SQLITE_MAX_VARIABLE_NUMBER ->
                all_servable pairs db = true ->
                (get_leverage_adjustment pairs db).1 = 200).
  { intros Hne Hlen Hs.
    destruct (get_metrics_Ok SQLITE_MAX_VARIABLE_NUMBER pairs db Hlen)
      as [metrics Hget].
    { intros k row Hk Hrow. now apply (all_servable_parses pairs db). }
    destruct (build_response_spec metrics db pairs) with
      (response := @nil (string * entry)) as (r & Hr & _); [|exact Hs|].
    { intros k Hk. rewrite (get_metrics_lookup _ _ _ _ k Hget).
      now rewrite bool_decide_eq_true_2. }
    unfold Query.get_leverage_adjustment. destruct pairs; [congruence|].
    rewrite Hget. cbn [result_bind]. now rewrite Hr. }
  assert (Hko : ~ Z.of_nat (length pairs) <= Z.pos SQLITE_MAX_VARIABLE_NUMBER
                \/ all_servable pairs db = false ->
                (get_leverage_adjustment pairs db).1 = 500).
  { intros [Hlong|(k & row & Hk & Hrow & Hs)%all_servable_false].
    - apply lookup_too_long. lia.
    - now apply (lookup_unservable pairs db k row). }
  assert (Hcases : pairs <> [] ->
                   (Z.of_nat (length pairs) <= Z.pos SQLITE_MAX_VARIABLE_NUMBER
                    /\ all_servable pairs db = true
                    /\ (get_leverage_adjustment pairs db).1 = 200)
                   \/ ((~ Z.of_nat (length pairs)
                          <= Z.pos SQLITE_MAX_VARIABLE_NUMBER
                        \/ all_servable pairs db = false)
                       /\ (get_leverage_adjustment pairs db).1 = 500)).
  { intros Hne.
    destruct (decide (Z.of_nat (length pairs)
                      <= Z.pos SQLITE_MAX_VARIABLE_NUMBER)) as [Hlen|Hlen];
      [|right; split; [now left|apply Hko; now left]].
    destruct (all_servable pairs db) eqn:E.
    - left. repeat split; [exact Hlen|now apply Hok].
    - right. split; [now right|apply Hko; now right]. }
  split; [|split].
  - split; [|now intros ->].
    intros H. destruct pairs as [|p pairs']; [reflexivity|].
    destruct Hcases as [(_ & _ & H')|[_ H']]; [discriminate|..];
      rewrite H' in H; discriminate.
  - intros Hne. split; [|intros [Hlen Hs]; now apply Hok].
    intros H. destruct (Hcases Hne) as [(Hlen & Hs & _)|[_ H']];
      [now split|]. rewrite H' in H. discriminate.
  - intros Hne. split; [|exact Hko].
    intros H. destruct (Hcases Hne) as [(_ & _ & H')|[Hbad _]];
      [|exact Hbad]. rewrite H' in H. discriminate.
Qed.

(** X21. Write then query: a record whose four float attributes are set to
    floats that SQLite stores as they are is served, after its save, as
    those floats rounded to 4 places with its leverage unchanged and its
    timestamp in ISO form with the [T] separator. *)
Theorem save_then_lookup (metrics : PairMetrics) (db : table)
    (la vr corr adm : float) :
  leverage_adjustment metrics = Some la ->
  volatility_ratio metrics = Some vr ->
  correlation_with_eth metrics = Some corr ->
  avg_daily_movement metrics = Some adm ->
  storable (Some la) -> storable (Some vr) ->
  storable (Some corr) -> storable (Some adm) ->
  fits_int64 (recommended_leverage metrics) = true ->
  valid_datetime (last_updated metrics) = true ->
  exists db',
    save_metrics metrics db = Ok db'
    /\ get_leverage_adjustment [pair metrics] db'
       = (200,
          Response
            [(pair metrics,
              Found (py_round la 4) (py_round vr 4) (py_round corr 4)
                (py_round adm 4) (recommended_leverage metrics)
                (isoformat "T" (last_updated metrics)))]).
Proof.
  intros Hla Hvr Hcorr Hadm Sla Svr Scorr Sadm Hfit Hvalid.
  eexists. split; [now apply save_metrics_Ok|].
  assert (Hrow : metrics_of_row (pair metrics) (row_of metrics) = Some metrics).
  { apply metrics_of_row_row_of; try assumption; congruence. }
  destruct (get_metrics_Ok SQLITE_MAX_VARIABLE_NUMBER [pair metrics]
              (<[pair metrics := row_of metrics]> db)) as [res Hres].
  { apply one_host_parameter. }
  { intros k row ->%list_elem_of_singleton. rewrite lookup_insert_eq.
    intros [= <-]. rewrite Hrow. eauto. }
  pose proof (get_metrics_lookup _ _ _ _ (pair metrics) Hres) as Hl.
  rewrite bool_decide_eq_true_2, lookup_insert_eq in Hl
    by (now apply list_elem_of_singleton).
  simpl in Hl. rewrite Hrow in Hl.
  unfold Query.get_leverage_adjustment. rewrite Hres.
  cbn [result_bind build_response].
  rewrite Hl. unfold found_entry, round4. rewrite Hla, Hvr, Hcorr, Hadm.
  reflexivity.
Qed.

Section WithExchange.
Variable sample_std : list float -> float.
Variable mean_of : list float -> float.
Variable pearson : list (float * float) -> float.
Variable fetch_ohlcv : string -> option DataFrame.
Variable clock : nat -> datetime.

(** X22. Refresh then query: once a cycle has analysed a pair with a history
    of one or two bars against a benchmark of positive volatility, every
    lookup that names the pair answers 500, whatever else it names: the
    NaN volatility ratio was stored as NULL and cannot be rounded. *)
Theorem short_history_breaks_lookup (pairs request : list string)
    (db : table) (p : string) :
  p ∈ pairs ->
  get_ohlcv_data fetch_ohlcv p <> [] ->
  (length (get_ohlcv_data fetch_ohlcv p) <= 2)%nat ->
  (0 <? volatility (eth_reference sample_std mean_of fetch_ohlcv))%float
  = true ->
  p ∈ request ->
  (get_leverage_adjustment request
     (update_metrics sample_std mean_of pearson fetch_ohlcv clock
        (Some pairs) db).1).1 = 500.
Proof.
  intros Hin Hdata Hlen Heth Hreq.
  destruct (update_metrics_lookup sample_std mean_of pearson fetch_ohlcv clock
              pairs db) as (db' & Hu & Hl).
  rewrite Hu. cbn [fst].
  destruct (analyze_loop_get_analysed sample_std mean_of pearson fetch_ohlcv
              clock (eth_reference sample_std mean_of fetch_ohlcv) p pairs
              Hin Hdata 0%nat []) as (j & m & _ & Hm & Hget).
  destruct (AnalyzerFacts.short_history_record sample_std mean_of pearson
              fetch_ohlcv p (eth_reference sample_std mean_of fetch_ohlcv)
              (clock (0 + j)) Hdata Hlen Heth) as (m' & Hm' & Hnan).
  rewrite Hm in Hm'. injection Hm' as <-.
  apply (lookup_unservable request db' p (row_of m)); [exact Hreq| |].
  - rewrite Hl. unfold Analyzer.analyze_all_pairs. now rewrite Hget.
  - unfold servable, row_of. cbn [col_volatility_ratio].
    rewrite Hnan.
    replace (bind_real (Some nan)) with (@None float) by reflexivity.
    rewrite (bool_decide_eq_false_2 (is_Some None)) by (now intros [x Hx]).
    now rewrite !andb_false_r.
Qed.

End WithExchange.

End HostParameters.

Lemma save_then_lookup_witness :
  exists db',
    save_metrics sample_metrics ∅ = Ok db'
    /\ get_leverage_adjustment default_max_variable_number
         [pair sample_metrics] db'
       = (200,
          Response
            [(pair sample_metrics,
              Found (py_round 0.5%float 4) (py_round 3%float 4)
                (py_round 0%float 4) (py_round 0.05%float 4)
                (recommended_leverage sample_metrics)
                (isoformat "T" (last_updated sample_metrics)))]).
Proof.
  apply (save_then_lookup default_max_variable_number sample_metrics ∅);
    reflexivity.
Defined.

Lemma short_history_breaks_lookup_witness :
  (get_leverage_adjustment default_max_variable_number
     ["BTC/USDT:USDT"; "NEW/USDT:USDT"]%string
     (update_metrics naive_std naive_mean naive_pearson
        AnalyzerFacts.new_listing_exchange night_clock
        (Some ["NEW/USDT:USDT"]%string)
        {[pair sample_metrics := row_of sample_metrics]}).1).1 = 500.
Proof.
  apply short_history_breaks_lookup with (p := "NEW/USDT:USDT"%string).
  - rewrite list_elem_of_singleton. reflexivity.
  - discriminate.
  - vm_compute. lia.
  - vm_compute. reflexivity.
  - rewrite !elem_of_cons. right. left. reflexivity.
Defined.

End QueryFacts.
